(** * A shallow embedding of the entity classifier

    The development follows the Python sources of the classifier:

    - [classifier/entity_classifier/utils/result_validation.py]
      (format heuristics, the decimal-adjacency filter),
    - [classifier/entity_classifier_2/core/validation.py]
      (the validator dispatcher),
    - [classifier/entity_classifier_2/analyzers/us_analyzer.py],
    - [classifier/entity_classifier/analyzers/base_analyzer.py] and
      [dob_analyzer.py],
    - [classifier/entity_classifier/entity_classifier.py]
      (the orchestrator, conflict resolution, response building).

    Python strings are modelled as Rocq strings of ASCII characters;
    [isdigit], [isalpha] and [lower] are the restrictions of the Python
    methods to ASCII.  Offsets are integers ([Z]), so that Python's
    negative indices can be written out.  Dictionaries are [gmap]s, or
    association lists where the iteration order matters.  Exceptions are
    explicit values of a small result type. *)

From Stdlib Require Import ZArith Ascii String List Bool Lia QArith Qcanon Sorted.
From stdpp Require Import base option list gmap strings.

Local Open Scope Z_scope.

(** ** Python strings *)

Module Py.

Definition chars (s : string) : list ascii := list_ascii_of_string s.

Definition len (s : string) : Z := Z.of_nat (String.length s).

Definition code (c : ascii) : Z := Z.of_nat (nat_of_ascii c).

(** [str.isdigit], [str.isalpha], [str.isspace] on ASCII. *)
Definition isdigit (c : ascii) : bool := (48 <=? code c) && (code c <=? 57).

Definition isupper (c : ascii) : bool := (65 <=? code c) && (code c <=? 90).

Definition islower (c : ascii) : bool := (97 <=? code c) && (code c <=? 122).

Definition isalpha (c : ascii) : bool := isupper c || islower c.

(** The characters matched by [\s] : space, \t \n \v \f \r and the
    four ASCII separators. *)
Definition isspace (c : ascii) : bool :=
  (code c =? 32) || ((9 <=? code c) && (code c <=? 13))
  || ((28 <=? code c) && (code c <=? 31)).

(** [int(c)] for a digit character. *)
Definition int_of_digit (c : ascii) : Z := code c - 48.

Definition lower_char (c : ascii) : ascii :=
  if isupper c then ascii_of_nat (nat_of_ascii c + 32) else c.

Definition upper_char (c : ascii) : ascii :=
  if islower c then ascii_of_nat (nat_of_ascii c - 32) else c.

Fixpoint lower (s : string) : string :=
  match s with
  | EmptyString => EmptyString
  | String c r => String (lower_char c) (lower r)
  end.

Fixpoint upper (s : string) : string :=
  match s with
  | EmptyString => EmptyString
  | String c r => String (upper_char c) (upper r)
  end.

(** [s[i]] : [None] stands for [IndexError].  A negative index counts
    from the end of the string. *)
Definition getitem (s : string) (i : Z) : option ascii :=
  if (0 <=? i) && (i <? len s) then String.get (Z.to_nat i) s
  else if (- len s <=? i) && (i <? 0) then String.get (Z.to_nat (i + len s)) s
  else None.

(** A slice bound, clamped as [slice.indices] does. *)
Definition clamp (n i : Z) : Z :=
  if i <? 0 then Z.max 0 (i + n) else Z.min i n.

(** [s[a:b]] : never raises. *)
Definition slice (s : string) (a b : Z) : string :=
  let a' := clamp (len s) a in
  let b' := clamp (len s) b in
  if a' <? b' then String.substring (Z.to_nat a') (Z.to_nat (b' - a')) s
  else EmptyString.

(** [x in xs] for a list of strings. *)
Definition in_list (x : string) (xs : list string) : bool :=
  existsb (String.eqb x) xs.

(** [c in s] for a one-character needle. *)
Definition contains_char (c : ascii) (s : string) : bool :=
  existsb (Ascii.eqb c) (chars s).

(** [s.replace(old, new)] for a one-character [old]. *)
Fixpoint replace_char (old : ascii) (new : string) (s : string) : string :=
  match s with
  | EmptyString => EmptyString
  | String c r =>
      if Ascii.eqb c old then new +:+ replace_char old new r
      else String c (replace_char old new r)
  end.

(** [str(n)] for an integer. *)
Definition str_of_nat_digit (n : nat) : ascii := ascii_of_nat (48 + n).

Fixpoint str_of_nat_fuel (fuel n : nat) (acc : string) : string :=
  match fuel with
  | O => acc
  | S fuel' =>
      let acc' := String (str_of_nat_digit (n mod 10)) acc in
      match (n / 10)%nat with
      | O => acc'
      | q => str_of_nat_fuel fuel' q acc'
      end
  end.

Definition str_of_Z (z : Z) : string :=
  let n := Z.abs_nat z in
  let body := str_of_nat_fuel (S n) n EmptyString in
  if z <? 0 then String "-" body else body.

End Py.

(** ** Exceptions *)

(** The exception classes that the modelled code raises or catches.
    [TypeError] carries whether it comes from binding the arguments of a
    call (an arity mismatch) or from somewhere else; Python's
    [except TypeError] cannot tell the two apart.  Every constructor is a
    subclass of [Exception]. *)
Inductive exn : Type :=
| TypeError (arity_mismatch : bool)
| ImportError
| AttributeError
| IndexError
| ValueError
| OtherError (name : string).

Inductive result (A : Type) : Type :=
| Return (a : A)
| Raise (e : exn).
Arguments Return {A} a.
Arguments Raise {A} e.

(** Sequencing: an exception raised by a statement ends the block. *)
#[export] Instance result_ret : MRet result := fun A a => Return a.

#[export] Instance result_bind : MBind result := fun A B k m =>
  match m with
  | Return a => k a
  | Raise e => Raise e
  end.

Definition is_TypeError (e : exn) : bool :=
  match e with TypeError _ => true | _ => false end.

(** [try: body  except TypeError: handler] *)
Definition try_except_TypeError {A} (body handler : result A) : result A :=
  match body with
  | Raise (TypeError _) => handler
  | other => other
  end.

(** [try: body  except Exception: return default] *)
Definition try_except_Exception {A} (body : result A) (default : A) : A :=
  match body with
  | Return a => a
  | Raise _ => default
  end.

(** ** [result_validation.py] *)

Module ResultValidation.
Import Py.

(** The collaborators that live outside the repository. *)
Record ymd := { year : Z; month : Z; day : Z }.

Record external := {
  (** [stdnum.us.ssn.is_valid], [stdnum.us.itin.is_valid] *)
  ssn_is_valid : string -> bool;
  itin_is_valid : string -> bool;
  (** [dateutil.parser.parse]; [None] stands for [ParserError] *)
  parse : string -> option ymd;
  (** the two regular expressions of [is_valid_ip] *)
  ip_patterns_match : string -> bool
}.

(** *** [dob_regex] *)

(** One element of an alternative of [dob_regex]: a literal character
    (matched under [re.IGNORECASE]), [\s+] or [\s*]. *)
Inductive atom : Type :=
| Lit (c : ascii)
| Spaces1
| Spaces0.

Definition lits (s : string) : list atom := map Lit (chars s).

Fixpoint skip_spaces (t : list ascii) : list ascii :=
  match t with
  | c :: r => if isspace c then skip_spaces r else t
  | [] => []
  end.

(** Does the alternative match a prefix of [t]?  Every [\s+] and [\s*]
    of the expression is followed by a letter, so taking all the white
    space is the only way to match. *)
Fixpoint match_atoms (p : list atom) (t : list ascii) : bool :=
  match p with
  | [] => true
  | Lit c :: p' =>
      match t with
      | d :: t' => Ascii.eqb (lower_char c) (lower_char d) && match_atoms p' t'
      | [] => false
      end
  | Spaces1 :: p' =>
      match t with
      | d :: t' => isspace d && match_atoms p' (skip_spaces t')
      | [] => false
      end
  | Spaces0 :: p' => match_atoms p' (skip_spaces t)
  end.

Fixpoint search_atoms (ps : list (list atom)) (t : list ascii) : bool :=
  existsb (fun p => match_atoms p t) ps
  || match t with
     | [] => false
     | _ :: t' => search_atoms ps t'
     end.

(** The alternatives, in the order of the source.  The letters outside
    ASCII are written as their UTF-8 bytes. *)
Definition e_acute : string := String (ascii_of_nat 195) (String (ascii_of_nat 169) "").
Definition a_uml : string := String (ascii_of_nat 195) (String (ascii_of_nat 164) "").
Definition o_uml : string := String (ascii_of_nat 195) (String (ascii_of_nat 182) "").

Definition dob_alternatives : list (list atom) :=
  [ lits "Birth"; lits "DOB"; lits "Birthdate"; lits "Born"; lits "D.O.B."; lits "DOB";
    lits "Geburtsdatum"; lits "Geburtstag"; lits "geboren" ++ Spaces1 :: lits "am";
    lits "Geb." ++ Spaces0 :: lits "Datum";
    lits "Date" ++ Spaces1 :: lits "de" ++ Spaces1 :: lits "naissance"; lits "DDN";
    lits ("N" +:+ e_acute +:+ "(e)") ++ Spaces1 :: lits "le";
    lits "Date" ++ Spaces1 :: lits "de" ++ Spaces1 :: lits "n.";
    lits "Fecha" ++ Spaces1 :: lits "de" ++ Spaces1 :: lits "nacimiento"; lits "F.N.";
    lits "Nacimiento"; lits "Nacido" ++ Spaces1 :: lits "el";
    lits "Fecha" ++ Spaces1 :: lits "nacimiento";
    lits "Fecha" ++ Spaces1 :: lits "de" ++ Spaces1 :: lits "n.";
    lits ("Syntym" +:+ a_uml +:+ "aika"); lits ("Syntym" +:+ a_uml +:+ "p" +:+ a_uml +:+ "iv" +:+ a_uml);
    lits ("Syntym" +:+ a_uml); lits "Syntynyt";
    lits "Geboortedatum"; lits "Geboren" ++ Spaces1 :: lits "op"; lits "Geboorte";
    lits "Geb." ++ Spaces0 :: lits "datum";
    lits ("F" +:+ o_uml +:+ "delsedatum"); lits ("F" +:+ o_uml +:+ "dd") ++ Spaces1 :: lits "den";
    lits ("F" +:+ o_uml +:+ "delsedag"); lits ("F" +:+ o_uml +:+ "dd"); lits "F.d." ].

(** [bool(dob_regex.search(text))] *)
Definition dob_regex_search (text : string) : bool :=
  search_atoms dob_alternatives (chars text).

(** *** Helper functions *)

Definition is_valid_email (email : string) : bool :=
  contains_char "@" email && contains_char "." email.

Definition count_digits (s : string) : Z :=
  Z.of_nat (length (List.filter isdigit (chars s))).

Definition is_valid_name (name : string) : bool :=
  (5 <? len name) && (count_digits name <? 3).

(** [bool(re.search(r"[A-Za-z]+", field_value))] : despite its name,
    true when the value contains a letter. *)
Definition is_valid_numeric_field (field_value : string) : bool :=
  existsb isalpha (chars field_value).

(** [re.sub(r"\D", "", field_value)] *)
Definition strip_non_digits (s : string) : list ascii :=
  List.filter isdigit (chars s).

Definition is_valid_length_for_entity (ext : external)
    (key_label field_value : string) : bool :=
  let digit_value := strip_non_digits field_value in
  let n := Z.of_nat (length digit_value) in
  if String.eqb (lower key_label) "ssn" then
    (n =? 9) && ssn_is_valid ext field_value
  else if String.eqb (lower key_label) "itin" then
    (n =? 9) && itin_is_valid ext field_value
  else if String.eqb (lower key_label) "credit_card_number" then
    (12 <=? n) && (n <=? 19)
  else if String.eqb (lower key_label) "phone_number" then
    (7 <=? n) && (n <=? 30)
  else if String.eqb (lower key_label) "bank_account_number" then
    (6 <=? n) && (n <=? 15)
  else true.

Definition is_valid_date (ext : external) (date text : string) : bool :=
  if len date <? 8 then false
  else if negb (dob_regex_search text) then false
  else match parse ext date with
       | Some _ => true
       | None => false
       end.

Definition is_valid_ip (ext : external) (ip : string) : bool :=
  ip_patterns_match ext ip.

Definition count_alphabets (s : string) : Z :=
  Z.of_nat (length (List.filter isalpha (chars s))).

(** *** The consecutive-digit heuristics *)

(** The body of the three loops: [prev] is [digits[i - 1]], [count] the
    running counter, and [step_ok d prev] the comparison of the loop. *)
Fixpoint scan_runs (step_ok : Z -> Z -> bool) (min_consecutive : Z)
    (prev count : Z) (rest : list Z) : bool :=
  match rest with
  | [] => false
  | d :: rest' =>
      if step_ok d prev then
        let count' := count + 1 in
        if min_consecutive <=? count' then true
        else scan_runs step_ok min_consecutive d count' rest'
      else scan_runs step_ok min_consecutive d 1 rest'
  end.

Definition digits_of (s : string) : list Z :=
  map int_of_digit (List.filter isdigit (chars s)).

Definition has_consecutive (step_ok : Z -> Z -> bool)
    (s : string) (min_consecutive : Z) : bool :=
  let digits := digits_of s in
  if Z.of_nat (length digits) <? min_consecutive then false
  else if negb (Z.of_nat (length digits) =? len s) then false
  else match digits with
       | [] => false
       | d0 :: rest => scan_runs step_ok min_consecutive d0 1 rest
       end.

Definition decreasing_step (d prev : Z) : bool := d =? prev - 1.
Definition repeating_step (d prev : Z) : bool := d =? prev.
Definition increasing_step (d prev : Z) : bool := d =? prev + 1.

Definition has_consecutive_decreasing_numbers (s : string) (min_consecutive : Z) : bool :=
  has_consecutive decreasing_step s min_consecutive.

Definition has_consecutive_repetitive_numbers (s : string) (min_consecutive : Z) : bool :=
  has_consecutive repeating_step s min_consecutive.

Definition has_consecutive_increasing_numbers (s : string) (min_consecutive : Z) : bool :=
  has_consecutive increasing_step s min_consecutive.

(** The default value of [min_consecutive]. *)
Definition default_min_consecutive : Z := 5.

Definition any_consecutive (s : string) : bool :=
  has_consecutive_increasing_numbers s default_min_consecutive
  || has_consecutive_decreasing_numbers s default_min_consecutive
  || has_consecutive_repetitive_numbers s default_min_consecutive.

(** *** [validate_extracted_data] *)

Definition numeric_labels : list string :=
  [ "ssn"; "credit_card_number"; "itin"; "phone_number"; "bank_account_number";
    "us_bank_number"; "us_bank_account_number"; "credit_card"; "us_ssn"; "us_itin" ].

Definition document_labels : list string :=
  [ "iban"; "bban"; "driver_license_number"; "passport_number";
    "us_driver_license"; "us_passport"; "iban_code" ].

Definition sequence_checked_labels : list string :=
  [ "iban_code"; "bban_code"; "passport_number"; "us_passport";
    "driver_license_number"; "us_driver_license"; "routing_number" ].

Definition has_digit (s : string) : bool := existsb isdigit (chars s).

Definition validate_extracted_data (ext : external)
    (label extracted_text text : string) : bool :=
  if in_list label ["IP_ADDRESS"; "ip-address"] then 6 <? len extracted_text
  else if String.eqb label "email" && negb (is_valid_email extracted_text) then false
  else if in_list label ["name"; "PERSON"; "LLM_PERSON"]
          && negb (is_valid_name extracted_text) then false
  else if String.eqb label "date_of_birth"
          && negb (is_valid_date ext extracted_text text) then false
  else if in_list (lower label) numeric_labels
          && (is_valid_numeric_field extracted_text
              || negb (is_valid_length_for_entity ext label extracted_text)
              || has_consecutive_increasing_numbers extracted_text default_min_consecutive
              || has_consecutive_decreasing_numbers extracted_text default_min_consecutive
              || has_consecutive_repetitive_numbers extracted_text default_min_consecutive)
       then false
  else if in_list (lower label) document_labels
          && ((len extracted_text <? 8)
              || negb (has_digit extracted_text)
              || (in_list label ["passport_number"; "driver_license_number"]
                  && (4 <? count_alphabets extracted_text)))
       then false
  else if String.eqb (lower label) "ip_address" && negb (is_valid_ip ext extracted_text)
       then false
  else if String.eqb (lower label) "api_key"
          && ((len extracted_text <? 8) || negb (has_digit extracted_text))
       then false
  else if in_list (lower label) sequence_checked_labels
          && any_consecutive extracted_text
       then false
  else if in_list (lower label) ["itin"; "us_itin"] then itin_is_valid ext extracted_text
  else if in_list (lower label)
            ["health_insurance_number"; "medical_record_number"; "license_plate_number"]
          && negb (has_digit extracted_text)
       then false
  else true.

(** *** [is_not_part_of_decimal] *)

Definition decimal_checked_labels : list string :=
  [ "ssn"; "credit_card"; "itin"; "phone_number"; "us_bank_number";
    "us_driver_license"; "us_ssn"; "us_itin" ].

(** [c.isdigit() or (c == '.' and text[other].isdigit())], where the
    second subscript may raise. *)
Definition digit_or_point (text : string) (c : ascii) (other : Z) : result bool :=
  if isdigit c then Return true
  else if Ascii.eqb c "." then
    match getitem text other with
    | Some d => Return (isdigit d)
    | None => Raise IndexError
    end
  else Return false.

Definition is_not_part_of_decimal_body
    (label text : string) (start_index end_index : Z) : result bool :=
  if in_list (lower label) decimal_checked_labels then
    before ←
       (if 0 <? start_index then
          match getitem text (start_index - 1) with
          | Some char_before => digit_or_point text char_before (start_index - 2)
          | None => Raise IndexError
          end
        else Return false);
     if (before : bool) then Return false
     else
       after ←
         (if end_index <? len text then
            match getitem text end_index with
            | Some char_after => digit_or_point text char_after (end_index + 1)
            | None => Raise IndexError
            end
          else Return false);
       if (after : bool) then Return false else Return true
  else Return true.

Definition is_not_part_of_decimal
    (label text : string) (start_index end_index : Z) : bool :=
  try_except_Exception
    (is_not_part_of_decimal_body label text start_index end_index) true.

End ResultValidation.

(** ** [core/validation.py]

    The sources hold this module, [core/config.py], [core/utils.py],
    [engine/span_resolver.py] and [analyzers/us_analyzer.py] in the
    package [entity_classifier_2]; the modules of [entity_classifier]
    import them under the names of their own package. *)

Module Validation.
Import Py.

(** The arguments a validator receives: strings and the rules
    dictionary. *)
Inductive arg : Type :=
| AStr (s : string)
| ADict (d : gmap string string).

(** A Python object as the dispatcher sees it: whether it can be
    called (and what a call does, [bool(...)] of the returned value
    included), whether it is a class, and its attributes. *)
#[local] Unset Elimination Schemes.
Inductive pyobj : Type :=
| PyObj (call : option (list arg -> result bool)) (is_type : bool)
        (attrs : list (string * pyobj)).
#[local] Set Elimination Schemes.

Definition obj_call (o : pyobj) : option (list arg -> result bool) :=
  match o with PyObj c _ _ => c end.
Definition obj_is_type (o : pyobj) : bool :=
  match o with PyObj _ t _ => t end.
Definition obj_attrs (o : pyobj) : list (string * pyobj) :=
  match o with PyObj _ _ a => a end.

Definition callable (o : pyobj) : bool :=
  match obj_call o with Some _ => true | None => false end.

(** [o(args)] : calling an object that is not callable raises a
    [TypeError] that is no arity mismatch. *)
Definition apply (o : pyobj) (args : list arg) : result bool :=
  match obj_call o with
  | Some f => f args
  | None => Raise (TypeError false)
  end.

(** A plain function of [n] positional parameters. *)
Definition def (n : nat) (body : list arg -> result bool) : pyobj :=
  PyObj (Some (fun args =>
                 if Nat.eqb (length args) n then body args
                 else Raise (TypeError true)))
        false [].

(** [getattr(o, name, None)] on a list of attributes and [dir(module)],
    which lists the names in sorted order (the list is kept sorted). *)
Fixpoint getattr (attrs : list (string * pyobj)) (name : string) : option pyobj :=
  match attrs with
  | [] => None
  | (k, v) :: rest => if String.eqb k name then Some v else getattr rest name
  end.

Definition module := list (string * pyobj).

(** [importlib.import_module] : the modules that can be imported. *)
Record importer := { import_module : string -> result module }.

(** [class ValidationRules]; the attributes that every class inherits
    from [object] are left out. *)
Definition always_true : pyobj := def 4 (fun _ => Return true).

Definition ValidationRules : list (string * pyobj) :=
  [ ("always_true", always_true) ].

(** [dotted_path.rpartition(".")] : the text before and after the last
    point, when there is one. *)
Fixpoint rpartition_dot (s : string) : option (string * string) :=
  match s with
  | EmptyString => None
  | String c r =>
      match rpartition_dot r with
      | Some (before, after) => Some (String c before, after)
      | None => if Ascii.eqb c "." then Some (EmptyString, r) else None
      end
  end.

Definition _import_object (imp : importer) (dotted_path : string) : result pyobj :=
  match rpartition_dot dotted_path with
  | None => Raise ImportError
  | Some (module_path, attr) =>
      if String.eqb module_path "" || String.eqb attr "" then Raise ImportError
      else
        m ← import_module imp module_path;
        match getattr m attr with
        | None => Raise AttributeError
        | Some func => if callable func then Return func else Raise AttributeError
        end
  end.

(** [s.strip()] *)
Fixpoint lstrip (s : string) : string :=
  match s with
  | String c r => if isspace c then lstrip r else s
  | EmptyString => EmptyString
  end.

Fixpoint rstrip (s : string) : string :=
  match s with
  | EmptyString => EmptyString
  | String c r =>
      match rstrip r with
      | EmptyString => if isspace c then EmptyString else String c EmptyString
      | r' => String c r'
      end
  end.

Definition strip (s : string) : string := rstrip (lstrip s).

(** The search through the classes of a module. *)
Fixpoint search_classes (members : list (string * pyobj)) (fn : string) : option pyobj :=
  match members with
  | [] => None
  | (_, attr) :: rest =>
      let next := search_classes rest fn in
      if obj_is_type attr then
        match getattr (obj_attrs attr) fn with
        | Some cand => if callable cand then Some cand else next
        | None => next
        end
      else next
  end.

Definition lookup_in_module (m : module) (fn : string) : option pyobj :=
  match getattr m fn with
  | Some func => if callable func then Some func else search_classes m fn
  | None => search_classes m fn
  end.

Fixpoint first_module (imp : importer) (module_names : list string) (fn : string)
    : option pyobj :=
  match module_names with
  | [] => None
  | mod_name :: rest =>
      match import_module imp mod_name with
      | Return m =>
          match lookup_in_module m fn with
          | Some func => Some func
          | None => first_module imp rest fn
          end
      | Raise _ => first_module imp rest fn
      end
  end.

Definition _resolve_in_country (imp : importer) (country fn : string) : option pyobj :=
  let cc := lower (strip country) in
  if String.eqb cc "" then None
  else
    first_module imp
      [ "classifier.entity_classifier_2.analyzers." +:+ cc +:+ "_analyzer";
        "pebclassifierblo.entity_classifier_2.analyzers." +:+ cc ]
      fn.

(** A computation together with the calls it made to the validator,
    in order. *)
Definition traced (A : Type) : Type := list (list arg) * A.

(** One attempt of [_call_flex]: call, and on [TypeError] go on with
    the next attempt. *)
Definition attempt (func : pyobj) (args : list arg)
    (otherwise : traced (result bool)) : traced (result bool) :=
  match apply func args with
  | Raise (TypeError _) => (args :: otherwise.1, otherwise.2)
  | other => ([args], other)
  end.

Definition _call_flex (func : pyobj) (value text country : string)
    (rules : gmap string string) : traced (result bool) :=
  attempt func [AStr value; AStr text; AStr country; ADict rules]
    (attempt func [AStr value; AStr text; AStr country]
       (attempt func [AStr value; AStr text]
          ([[AStr value]], apply func [AStr value]))).

(** The function that [validate] ends up calling. *)
Definition resolve (imp : importer) (fn country : string) : result pyobj :=
  if contains_char "." fn then _import_object imp fn
  else match _resolve_in_country imp country fn with
       | Some func => Return func
       | None => Return (default always_true (getattr ValidationRules fn))
       end.

Definition validate (imp : importer) (fn value text country : string)
    (rules : option (gmap string string)) : traced bool :=
  let rules := default ∅ rules in
  let body :=
    match resolve imp fn country with
    | Return func => _call_flex func value text country rules
    | Raise e => ([], Raise e)
    end in
  (body.1, try_except_Exception body.2 false).

End Validation.

(** ** [analyzers/us_analyzer.py] *)

Module USAnalyzer.
Import Py ResultValidation.

(** The helpers come from [core/utils.py], whose definitions are the
    same as those of [result_validation.py]. *)
Definition validate_bank_account_number (value text : string) : bool :=
  let digit_value := strip_non_digits value in
  let n := Z.of_nat (length digit_value) in
  let a1 := (6 <=? n) && (n <=? 17) in
  let a2 := negb (is_valid_numeric_field value) in
  let a3 := negb (has_consecutive_increasing_numbers value default_min_consecutive) in
  let a4 := negb (has_consecutive_decreasing_numbers value default_min_consecutive) in
  let a5 := negb (has_consecutive_repetitive_numbers value default_min_consecutive) in
  (len value <=? 15) && a2 && a3 && a4 && a5 && a1.

Definition validate_email (value text : string) : bool :=
  contains_char "@" value && contains_char "." value.

Definition validate_phone_number (value text : string) : bool :=
  (7 <=? len value) && (len value <=? 30)
  && negb (has_consecutive_increasing_numbers value default_min_consecutive)
  && negb (has_consecutive_decreasing_numbers value default_min_consecutive)
  && negb (has_consecutive_repetitive_numbers value default_min_consecutive).

End USAnalyzer.

(** ** [analyzers/dob_analyzer.py] *)

Module DobRecognizer.
Import Py ResultValidation.

(** [datetime.strptime] (with [None] for [ValueError]) and
    [datetime.today()]. *)
Record clock := {
  strptime : string -> string -> option ymd;
  today : ymd
}.

(** [a > b] on dates. *)
Definition date_gt (a b : ymd) : bool :=
  (year b <? year a)
  || ((year a =? year b)
      && ((month b <? month a)
          || ((month a =? month b) && (day b <? day a)))).

Fixpoint first_format (clk : clock) (normalized : string) (date_formats : list string)
    : option ymd :=
  match date_formats with
  | [] => None
  | fmt :: rest =>
      match strptime clk normalized fmt with
      | Some dob => Some dob
      | None => first_format clk normalized rest
      end
  end.

Definition invalidate_result (clk : clock) (pattern_text : string) : bool :=
  let normalized := replace_char "/" "-" (replace_char "." "-" pattern_text) in
  let date_formats := ["%d-%m-%Y"; "%Y-%m-%d"] in
  match first_format clk normalized date_formats with
  | None => true
  | Some dob =>
      if date_gt dob (today clk) then true
      else if 120 <? year (today clk) - year dob then true
      else false
  end.

End DobRecognizer.

(** ** Detection results *)

(** Presidio's [RecognizerResult]: equality and hashing compare the four
    fields.  Scores are floats in the source; they are only compared, and
    are modelled as rationals. *)
Record RecognizerResult := {
  entity_type : string;
  start : Z;
  end_ : Z;
  score : Qc
}.

#[export] Instance RecognizerResult_eq_dec : EqDecision RecognizerResult.
Proof. solve_decision. Defined.

(** ** [engine/span_resolver.py] and [analyzers/base_analyzer.py] *)

Module BaseCountryAnalyzer.
Import Py.

Record Thresholds := { min_confidence : Qc }.

Record DetectConfig := {
  methods : list string;
  thresholds : option Thresholds
}.

Record EntityLLM := { output_key : option string }.

Record ValidateConfig := { fn : option string }.

Record EntityConfig := {
  group : string;
  enabled : bool;
  detect : DetectConfig;
  validate_fn : option string;
  validation : option ValidateConfig;
  llm : option EntityLLM
}.

(** [entities] is a dictionary whose iteration order matters. *)
Record CountryConfig := {
  country : string;
  entities : list (string * EntityConfig)
}.

Fixpoint dict_get {V} (d : list (string * V)) (k : string) : option V :=
  match d with
  | [] => None
  | (k', v) :: rest => if String.eqb k' k then Some v else dict_get rest k
  end.

(** [d[k] = v] : the key keeps its place when it is already there. *)
Fixpoint dict_set {V} (d : list (string * V)) (k : string) (v : V) : list (string * V) :=
  match d with
  | [] => [(k, v)]
  | (k', v') :: rest =>
      if String.eqb k' k then (k, v) :: rest else (k', v') :: dict_set rest k v
  end.

(** The truth value of an optional string. *)
Definition truthy (o : option string) : option string :=
  match o with
  | Some s => if String.eqb s "" then None else Some s
  | None => None
  end.

Definition messages := list (string * string).

(** The collaborators of an analyzer: the prompt provider, the
    text-generation client and the methods found on the instance. *)
Record collaborators := {
  get_detection_messages : string -> list string -> messages;
  generate_entity : messages -> option (list (string * list string));
  instance_method : string -> option Validation.pyobj;
  importer : Validation.importer
}.

Record analyzer := {
  cfg : CountryConfig;
  _enable_pattern : bool;
  _enable_llm : bool;
  _llm_entity_ids : list string;
  collab : collaborators
}.

(** The constructor. *)
Definition llm_ids_of (c : CountryConfig) : list string :=
  map fst
    (List.filter (fun '(_, ent) => enabled ent && in_list "llm" (methods (detect ent)))
       (entities c)).

Definition make (c : CountryConfig) (enable_pattern enable_llm : bool)
    (co : collaborators) : analyzer :=
  {| cfg := c; _enable_pattern := enable_pattern; _enable_llm := enable_llm;
     _llm_entity_ids := llm_ids_of c; collab := co |}.

(** *** [map_values_to_spans] *)

Definition default_output_key (eid : string) : string :=
  upper (replace_char "-" "_" eid).

Definition key_to_entity (c : CountryConfig) : list (string * string) :=
  fold_left
    (fun acc '(eid, ent) =>
       if enabled ent then
         let output_key :=
           match llm ent with
           | Some l => default (default_output_key eid) (truthy (output_key l))
           | None => default_output_key eid
           end in
         dict_set acc output_key eid
       else acc)
    (entities c) [].

Definition overlaps (a b : Z * Z) : bool :=
  negb ((a.2 <=? b.1) || (b.2 <=? a.1)).

(** [text.find(val)] *)
Definition find (text val : string) : Z :=
  match String.index 0 val text with
  | Some i => Z.of_nat i
  | None => -1
  end.

Definition span_step (text eid : string)
    (st : list (string * Z * Z) * list (Z * Z)) (val : string)
    : list (string * Z * Z) * list (Z * Z) :=
  let '(results, used) := st in
  if String.eqb (Validation.strip val) "" then st
  else
    let s := find text val in
    if s <? 0 then st
    else
      let e := s + len val in
      if existsb (overlaps (s, e)) used then st
      else (results ++ [(eid, s, e)], used ++ [(s, e)]).

Definition map_values_to_spans (det_raw : list (string * list string))
    (text : string) (c : CountryConfig) : list (string * Z * Z) :=
  let k2e := key_to_entity c in
  fst
    (fold_left
       (fun st '(out_key, values) =>
          match truthy (dict_get k2e out_key) with
          | None => st
          | Some eid => fold_left (span_step text eid) values st
          end)
       det_raw ([], [])).

(** *** [_llm_detect_and_validate] *)

(** The result comes with the messages sent to the model, one entry
    per call of [generate_entity]. *)
Definition use_llm : bool := false.

Definition llm_score : Qc := Q2Qc (8 # 10).

Definition _llm_detect_and_validate (self : analyzer) (text : string)
    (target_ids : option (list string)) : list messages * list RecognizerResult :=
  if negb use_llm then ([], [])
  else if negb (_enable_llm self) || Nat.eqb (length (_llm_entity_ids self)) 0 then ([], [])
  else
    let ids :=
      match target_ids with
      | Some t => List.filter (fun eid => in_list eid t) (_llm_entity_ids self)
      | None => _llm_entity_ids self
      end in
    match ids with
    | [] => ([], [])
    | _ =>
        let msgs := get_detection_messages (collab self) text ids in
        match generate_entity (collab self) msgs with
        | None => ([msgs], [])
        | Some [] => ([msgs], [])
        | Some det_raw =>
            ([msgs],
             map (fun '(eid, s, e) =>
                    {| entity_type := eid; start := s; end_ := e; score := llm_score |})
                 (map_values_to_spans det_raw text (cfg self)))
        end
    end.

(** *** [post_filter] *)

Definition call_instance_method (m : Validation.pyobj) (value text country : string)
    : result bool :=
  try_except_TypeError
    (Validation.apply m
       [Validation.AStr value; Validation.AStr text; Validation.AStr country;
        Validation.ADict ∅])
    (try_except_TypeError
       (Validation.apply m [Validation.AStr value; Validation.AStr text])
       (Validation.apply m [Validation.AStr value])).

(** [Some r] when the result is kept, [None] when the loop goes on to
    the next result. *)
Definition keep (self : analyzer) (text : string) (r : RecognizerResult)
    : result (option RecognizerResult) :=
  match dict_get (entities (cfg self)) (entity_type r) with
  | None => Return None
  | Some ent =>
      if negb (enabled ent) then Return None
      else
        let min_conf :=
          match thresholds (detect ent) with
          | Some t => min_confidence t
          | None => Q2Qc 0
          end in
        if bool_decide (score r < min_conf)%Qc then Return None
        else
          match truthy (match truthy (validate_fn ent) with
                        | Some f => Some f
                        | None => match validation ent with
                                  | Some v => fn v
                                  | None => None
                                  end
                        end) with
          | None => Return (Some r)
          | Some f =>
              let value := slice text (start r) (end_ r) in
              ok ←
                match instance_method (collab self) f with
                | Some m =>
                    if Validation.callable m
                    then call_instance_method m value text (country (cfg self))
                    else Return (Validation.validate (importer (collab self)) f value text
                                   (country (cfg self)) (Some ∅)).2
                | None =>
                    Return (Validation.validate (importer (collab self)) f value text
                              (country (cfg self)) (Some ∅)).2
                end;
              if (ok : bool) then Return (Some r) else Return None
          end
  end.

Fixpoint post_filter (self : analyzer) (text : string) (results : list RecognizerResult)
    : result (list RecognizerResult) :=
  match results with
  | [] => Return []
  | r :: rest =>
      k ← keep self text r;
      filtered ← post_filter self text rest;
      Return (match k with Some r' => r' :: filtered | None => filtered end)
  end.

(** *** [analyze] *)

Definition analyze (self : analyzer) (text : string) (entities : list string)
    : list messages * result (list RecognizerResult) :=
  let requested := match entities with [] => None | _ => Some entities end in
  let llm_targets :=
    match requested with
    | None => None
    | Some req => Some (List.filter (fun eid => in_list eid (_llm_entity_ids self)) req)
    end in
  let '(calls, llm_results) :=
    if _enable_llm self then _llm_detect_and_validate self text llm_targets
    else ([], []) in
  (calls, post_filter self text llm_results).

End BaseCountryAnalyzer.

(** ** [entity_classifier.py] *)

Module EntityClassifier.
Import Py.

(** An entry of [_validator_index]. *)
Record vinfo := {
  v_country : string;
  v_fn : string;
  v_rules : gmap string string
}.

(** An item returned by the Presidio anonymizer. *)
Record anonymized_item := {
  a_entity_type : string;
  a_start : Z;
  a_end : Z
}.

(** The state of a classifier after construction, with the
    collaborators it calls. *)
Record classifier := {
  (** [self.analyzer.analyze(text=..., language="en")] *)
  analyze : string -> result (list RecognizerResult);
  (** [judge_results] of [utils/judge_entity.py], which is not among
      the sources, is a parameter: the arbitration call receives the
      text and the overlap groups and returns the candidates it keeps. *)
  judge_results : string -> list (list RecognizerResult) -> result (list RecognizerResult);
  (** [self.anonymizer.anonymize(text=..., analyzer_results=...)] :
      the items and the text of the result *)
  anonymize : string -> list RecognizerResult -> result (list anonymized_item * string);
  _group_conf : gmap string (Qc * string);
  _display_name : gmap string string;
  _validator_index : gmap string vinfo;
  importer : Validation.importer;
  ext : ResultValidation.external
}.

Definition entities_overlap (entity1 entity2 : RecognizerResult) : bool :=
  negb ((end_ entity1 <=? start entity2)
        || ((end_ entity2 <=? start entity1)
            && negb (String.eqb (entity_type entity1) (entity_type entity2)))).

(** *** [analyze_response] *)

(** [sorted(xs, key=lambda x: x.start)] : a stable sort. *)
Fixpoint insert_by_start (x : RecognizerResult) (l : list RecognizerResult)
    : list RecognizerResult :=
  match l with
  | [] => [x]
  | y :: l' => if start x <=? start y then x :: l else y :: insert_by_start x l'
  end.

Definition sorted_by_start (l : list RecognizerResult) : list RecognizerResult :=
  foldr insert_by_start [] l.

(** The three lists of the loop. *)
Record walk := {
  non_overlapping_results : list RecognizerResult;
  overlapping_results : list (list RecognizerResult);
  current_overlap_group : list RecognizerResult
}.

Definition walk_start : walk :=
  {| non_overlapping_results := []; overlapping_results := [];
     current_overlap_group := [] |}.

(** The filters in front of the conflict resolution: the candidate
    reaches the innermost [if] exactly when this holds. *)
Definition yaml_valid (self : classifier) (input_text value : string)
    (entity : RecognizerResult) : bool :=
  match _validator_index self !! entity_type entity with
  | Some vi =>
      if String.eqb (v_fn vi) "" then true
      else (Validation.validate (importer self) (v_fn vi) value input_text
              (v_country vi) (Some (v_rules vi))).2
  | None => true
  end.

Definition accepted (self : classifier) (input_text : string)
    (entity : RecognizerResult) : bool :=
  if ResultValidation.is_not_part_of_decimal
       (entity_type entity) input_text (start entity) (end_ entity)
  then
    let '(min_conf, _group) :=
      default (Q2Qc 0, "unknown") (_group_conf self !! entity_type entity) in
    if String.eqb _group "unknown" then false
    else
      let value := slice input_text (start entity) (end_ entity) in
      let yv := yaml_valid self input_text value entity in
      negb (bool_decide (score entity = Q2Qc 0))
      && bool_decide (min_conf <= score entity)%Qc
      && ResultValidation.validate_extracted_data (ext self)
           (entity_type entity) value input_text
      && yv
  else false.

(** What happens to the current group when it is closed. *)
Definition flush (w : walk) : walk :=
  match current_overlap_group w with
  | [] => w
  | [only] =>
      {| non_overlapping_results := non_overlapping_results w ++ [only];
         overlapping_results := overlapping_results w;
         current_overlap_group := current_overlap_group w |}
  | _ =>
      {| non_overlapping_results := non_overlapping_results w;
         overlapping_results := overlapping_results w ++ [current_overlap_group w];
         current_overlap_group := current_overlap_group w |}
  end.

(** The body of the innermost [if] for an accepted candidate. *)
Definition resolve (w : walk) (entity : RecognizerResult) : walk :=
  match last (current_overlap_group w) with
  | Some last_entity =>
      if entities_overlap last_entity entity then
        if String.eqb (entity_type last_entity) (entity_type entity) then
          {| non_overlapping_results := non_overlapping_results w ++ [entity];
             overlapping_results := overlapping_results w;
             current_overlap_group := current_overlap_group w |}
        else
          {| non_overlapping_results := non_overlapping_results w;
             overlapping_results := overlapping_results w;
             current_overlap_group := current_overlap_group w ++ [entity] |}
      else
        let w' := flush w in
        {| non_overlapping_results := non_overlapping_results w';
           overlapping_results := overlapping_results w';
           current_overlap_group := [entity] |}
  | None =>
      {| non_overlapping_results := non_overlapping_results w;
         overlapping_results := overlapping_results w;
         current_overlap_group := [entity] |}
  end.

(** One turn of the loop: a candidate that the filters reject leaves
    the three lists as they are. *)
Definition loop_step (self : classifier) (input_text : string)
    (w : walk) (entity : RecognizerResult) : walk :=
  if accepted self input_text entity then resolve w entity else w.

(** [list(set(xs))] keeps one copy of each result; the order of the
    returned list is not specified, and only membership is used. *)
Definition analyze_response (self : classifier) (input_text : string)
    : result (list RecognizerResult) :=
  analyzer_results ← analyze self input_text;
  let sorted_analyzer_results := sorted_by_start analyzer_results in
  let w := flush (fold_left (loop_step self input_text)
                    sorted_analyzer_results walk_start) in
  overlapping_results_new ← judge_results self input_text (overlapping_results w);
  Return (remove_dups (non_overlapping_results w ++ overlapping_results_new)).

(** *** [anonymize_response] *)

(** [input_text] is a required parameter: a call that leaves it out
    ([None] here) raises [TypeError] before the body runs. *)
Definition anonymize_response (self : classifier)
    (analyzer_results : list RecognizerResult) (input_text : option string)
    : result (list anonymized_item * string) :=
  match input_text with
  | None => Raise (TypeError true)
  | Some t => anonymize self t analyzer_results
  end.

(** *** [get_analyzed_entities_response] *)

Definition _sort_analyzed_data (data : list RecognizerResult) : list RecognizerResult :=
  sorted_by_start data.

Fixpoint insert_item (x : anonymized_item) (l : list anonymized_item)
    : list anonymized_item :=
  match l with
  | [] => [x]
  | y :: l' => if a_start x <=? a_start y then x :: l else y :: insert_item x l'
  end.

Definition _sort_anonymized_data (data : list anonymized_item) : list anonymized_item :=
  foldr insert_item [] data.

Definition format_location (a b : Z) : string :=
  str_of_Z a +:+ "_" +:+ str_of_Z b.

Definition update_anonymized_location (start_ end' location_count : Z) : string * Z :=
  (format_location (start_ + location_count) (end' + location_count + 6),
   location_count + 6).

Record entity_response := {
  r_entity_type : string;
  r_location : string;
  r_confidence_score : Qc;
  r_entity_value : string;
  r_start_index : Z;
  r_end_index : Z
}.

(** One turn of the loop: [index], [value], and the state made of
    [response] and [location_count].  An [IndexError] of
    [anonymized_response[index]] is caught inside the loop and the
    entry is left out. *)
Definition response_step (self : classifier)
    (anonymized_response : list anonymized_item) (input_text : string)
    (st : list entity_response * Z) (index : nat) (value : RecognizerResult)
    : list entity_response * Z :=
  let '(response, location_count) := st in
  let location := format_location (start value) (end_ value) in
  let entity_value := slice input_text (start value) (end_ value) in
  let body : result (string * Z) :=
    match anonymized_response with
    | [] => Return (location, location_count)
    | _ =>
        match anonymized_response !! index with
        | None => Raise IndexError
        | Some anonymized_data =>
            if String.eqb (a_entity_type anonymized_data) (entity_type value)
            then Return (update_anonymized_location
                           (a_start anonymized_data) (a_end anonymized_data)
                           location_count)
            else Return (location, location_count)
        end
    end in
  match body with
  | Raise _ => (response, location_count)
  | Return (location', location_count') =>
      let '(_, _grp) :=
        default (Q2Qc 0, "unknown") (_group_conf self !! entity_type value) in
      if String.eqb _grp "unknown" then (response, location_count')
      else
        (response ++
           [ {| r_entity_type :=
                  default (entity_type value) (_display_name self !! entity_type value);
                r_location := location';
                r_confidence_score := score value;
                r_entity_value := entity_value;
                r_start_index := start value;
                r_end_index := end_ value |} ],
         location_count')
  end.

Fixpoint response_loop (self : classifier)
    (anonymized_response : list anonymized_item) (input_text : string)
    (st : list entity_response * Z) (index : nat) (values : list RecognizerResult)
    : list entity_response * Z :=
  match values with
  | [] => st
  | value :: rest =>
      response_loop self anonymized_response input_text
        (response_step self anonymized_response input_text st index value)
        (S index) rest
  end.

Definition get_analyzed_entities_response (self : classifier)
    (data : list RecognizerResult) (anonymized_response : option (list anonymized_item))
    (input_text : string) : list entity_response :=
  let analyzed_data := _sort_analyzed_data data in
  let anonymized_response :=
    match anonymized_response with
    | Some (x :: l) => _sort_anonymized_data (x :: l)
    | _ => []
    end in
  fst (response_loop self anonymized_response input_text ([], 0) 0%nat analyzed_data).

(** *** [_aggregate_entities_yaml] *)

Record detail := {
  d_location : string;
  d_confidence_score : Qc;
  d_entity_value : string;
  d_start_index : Z;
  d_end_index : Z
}.

Definition _aggregate_entities_yaml (entities_response : list entity_response)
    : gmap string (list detail) :=
  fold_left
    (fun (entity_details : gmap string (list detail)) entry =>
       let d := {| d_location := r_location entry;
                   d_confidence_score := r_confidence_score entry;
                   d_entity_value := r_entity_value entry;
                   d_start_index := r_start_index entry;
                   d_end_index := r_end_index entry |} in
       <[ r_entity_type entry :=
            default [] (entity_details !! r_entity_type entry) ++ [d] ]> entity_details)
    entities_response ∅.

(** *** [entity_classifier_and_anonymizer] *)

(** The body of the [try] block: the pair it returns, or the exception
    that leaves it together with the value [input_text] has at that
    point. *)
Definition classify_body (self : classifier) (input_text : string)
    (anonymize_snippets : bool) : result (gmap string (list detail) * string) * string :=
  match analyze_response self input_text with
  | Raise e => (Raise e, input_text)
  | Return analyzer_results =>
      if anonymize_snippets then
        match anonymize_response self analyzer_results None with
        | Raise e => (Raise e, input_text)
        | Return (anonymized_response, anonymized_text) =>
            let input_text' :=
              replace_char ">" "&gt;" (replace_char "<" "&lt;" anonymized_text) in
            let entities_response :=
              get_analyzed_entities_response self analyzer_results
                (Some anonymized_response) input_text' in
            (Return (_aggregate_entities_yaml entities_response, input_text'), input_text')
        end
      else
        let entities_response :=
          get_analyzed_entities_response self analyzer_results None input_text in
        (Return (_aggregate_entities_yaml entities_response, input_text), input_text)
  end.

Definition entity_classifier_and_anonymizer (self : classifier) (input_text : string)
    (anonymize_snippets : bool) : gmap string (list detail) * string :=
  let entity_details : gmap string (list detail) := ∅ in
  match classify_body self input_text anonymize_snippets with
  | (Return r, _) => r
  | (Raise _, input_text') => (entity_details, input_text')
  end.

End EntityClassifier.

(** ** The properties of the specification, as definitions *)

Module Spec.
Import Py.

(** *** Conflict resolution *)

(** "Two spans are considered overlapping when their ranges
    intersect": the half-open ranges have a common offset. *)
Definition ranges_intersect (a b : RecognizerResult) : bool :=
  Z.max (start a) (start b) <? Z.min (end_ a) (end_ b).


Definition start_sorted (l : list RecognizerResult) : Prop :=
  StronglySorted (fun a b => start a <= start b) l.


(** The stream that reaches the conflict resolution, and what the
    loop of [analyze_response] makes of a stream. *)
Definition accepted_stream (self : EntityClassifier.classifier) (input_text : string)
    (analyzer_results : list RecognizerResult) : list RecognizerResult :=
  List.filter (EntityClassifier.accepted self input_text)
    (EntityClassifier.sorted_by_start analyzer_results).

Definition partition (stream : list RecognizerResult) : EntityClassifier.walk :=
  EntityClassifier.flush
    (fold_left EntityClassifier.resolve stream EntityClassifier.walk_start).






(** *** Runs of digits *)

(** Each element of the list follows from the one before it. *)
Fixpoint chain (step_ok : Z -> Z -> bool) (l : list Z) : bool :=
  match l with
  | a :: (b :: _) as t => step_ok b a && chain step_ok t
  | _ => true
  end.

(** The value contains a run of at least [n] digits, each of which
    follows from the previous one. *)
Definition contains_run (step_ok : Z -> Z -> bool) (n : Z) (s : string) : Prop :=
  exists pre run post,
    chars s = pre ++ run ++ post
    /\ n <= Z.of_nat (length run)
    /\ forallb isdigit run = true
    /\ chain step_ok (map int_of_digit run) = true.

Definition all_digits (s : string) : Prop := forallb isdigit (chars s) = true.

(** *** Decimal adjacency *)

(** The character at an offset of the text, when there is one. *)
Definition char_at (text : string) (i : Z) : option ascii :=
  if (0 <=? i) && (i <? len text) then String.get (Z.to_nat i) text else None.

Definition digit_at (text : string) (i : Z) : bool :=
  match char_at text i with Some c => isdigit c | None => false end.

Definition point_at (text : string) (i : Z) : bool :=
  match char_at text i with Some c => Ascii.eqb c "." | None => false end.

(** The character before the start or after the end is a digit,
    directly or behind a decimal point. *)
Definition adjacent_to_digit (text : string) (start_index end_index : Z) : bool :=
  digit_at text (start_index - 1)
  || (point_at text (start_index - 1) && digit_at text (start_index - 2))
  || digit_at text end_index
  || (point_at text end_index && digit_at text (end_index + 1)).

(** *** Locations after anonymization *)




(** *** The calls of the dispatcher *)

Definition raises_TypeError (o : result bool) : Prop :=
  exists arity, o = Raise (TypeError arity).

(** The four argument lists, from the richest one. *)
Definition signatures (value text country : string) (rules : gmap string string)
    : list (list Validation.arg) :=
  [ [Validation.AStr value; Validation.AStr text; Validation.AStr country;
     Validation.ADict rules];
    [Validation.AStr value; Validation.AStr text; Validation.AStr country];
    [Validation.AStr value; Validation.AStr text];
    [Validation.AStr value] ].



(** The entity has a group in [_group_conf]. *)
Definition has_group (self : EntityClassifier.classifier) (value : RecognizerResult) : bool :=
  negb (String.eqb
          (default (Q2Qc 0, "unknown")
             (EntityClassifier._group_conf self !! entity_type value)).2
          "unknown").


End Spec.

(** ** Example inputs *)

Module Examples.
Import Py ResultValidation Validation EntityClassifier.

Definition no_modules : Validation.importer :=
  {| import_module := fun _ => Raise ImportError |}.

(** A stand-in for [dateutil] on dates written YYYY-MM-DD. *)
Definition two_digits (a b : ascii) : option Z :=
  if isdigit a && isdigit b then Some (10 * int_of_digit a + int_of_digit b) else None.

Definition iso_parse (s : string) : option ymd :=
  match chars s with
  | [y1; y2; y3; y4; s1; m1; m2; s2; d1; d2] =>
      if Ascii.eqb s1 "-" && Ascii.eqb s2 "-" then
        match two_digits y1 y2, two_digits y3 y4, two_digits m1 m2, two_digits d1 d2 with
        | Some a, Some b, Some m, Some d =>
            if (1 <=? m) && (m <=? 12) && (1 <=? d) && (d <=? 28)
            then Some {| year := 100 * a + b; month := m; day := d |}
            else None
        | _, _, _, _ => None
        end
      else None
  | _ => None
  end.

Definition plain_external : ResultValidation.external :=
  {| ssn_is_valid := fun _ => false;
     itin_is_valid := fun _ => false;
     parse := iso_parse;
     ip_patterns_match := fun _ => false |}.

Definition half : Qc := Q2Qc (1 # 2).
Definition score_085 : Qc := Q2Qc (85 # 100).

Definition candidate (ty : string) (s e : Z) : RecognizerResult :=
  {| entity_type := ty; start := s; end_ := e; score := score_085 |}.

(** A classifier with two entities, no validators, an arbitration
    that returns [judged], and an anonymizer that returns [items]. *)
Definition demo (cands judged : list RecognizerResult)
    (items : list anonymized_item) : classifier :=
  {| analyze := fun _ => Return cands;
     judge_results := fun _ _ => Return judged;
     anonymize := fun t _ => Return (items, t);
     _group_conf :=
       <[ "claim-number" := (half, "insurance") ]>
         (<[ "employee-id" := (half, "employment") ]> ∅);
     _display_name := ∅;
     _validator_index := ∅;
     importer := no_modules;
     ext := plain_external |}.

Definition demo_text : string := "Claim CLM-2024-00017 filed by EMP-00017-A".

(** The two identifiers of [demo_text], and what the anonymizer
    returns for them: the text
    "Claim <claim-number> filed by <employee-id>" and the spans of the
    two placeholders in it. *)
Definition demo_candidates : list RecognizerResult :=
  [ candidate "claim-number" 6 20; candidate "employee-id" 30 41 ].



(** A stream with one overlap group. *)
Definition grouped_candidates : list RecognizerResult :=
  [ candidate "claim-number" 6 20; candidate "employee-id" 8 12;
    candidate "employee-id" 30 41 ].


(** A validator with default values for its last parameters: it takes
    one to four arguments, and raises a [TypeError] of its own when it
    is given the rules. *)
Definition picky_validator : pyobj :=
  PyObj (Some (fun args =>
                 match args with
                 | [] => Raise (TypeError true)
                 | [_; _; _; _] => Raise (TypeError false)
                 | _ :: _ :: _ :: _ :: _ :: _ => Raise (TypeError true)
                 | _ => Return true
                 end))
        false [].

Definition one_module : Validation.importer :=
  {| import_module := fun name =>
       if String.eqb name "validators" then Return [("check", picky_validator)]
       else Raise ImportError |}.

End Examples.

(** * More of the code *)

(** ** [core/utils.py] *)

Module Utils.
Import Py.

(** The characters of the default pattern of [normalize_token],
    [[ \t\r\n\-._/,\\]]. *)
Definition is_separator (c : ascii) : bool :=
  existsb (Ascii.eqb c)
    [" "; "009"; "013"; "010"; "-"; "."; "_"; "/"; ","; "\"]%char.

(** [normalize_token(value)], with the default pattern. *)
Definition normalize_token (value : string) : string :=
  upper (string_of_list_ascii
           (List.filter (fun c => negb (is_separator c)) (chars value))).

(** [weights[i % 3]] *)
Definition weight (i : nat) : Z :=
  match (i mod 3)%nat with
  | 0%nat => 7
  | 1%nat => 3
  | _ => 1
  end.

(** The value of a character of the machine-readable zone, when it has
    one. *)
Definition mrz_value (ch : ascii) : option Z :=
  if isdigit ch then Some (code ch - 48)
  else if isupper ch then Some (code ch - 55)
  else if Ascii.eqb ch "<" then Some 0
  else None.

(** The loop of [mrz_check_digit], from the index [i] on. *)
Fixpoint mrz_loop (i : nat) (total : Z) (data : list ascii) : Z :=
  match data with
  | [] => total mod 10
  | ch :: rest =>
      match mrz_value ch with
      | Some val => mrz_loop (S i) (total + val * weight i) rest
      | None => -1
      end
  end.

Definition mrz_check_digit (data : string) : Z := mrz_loop 0 0 (chars data).

(** One turn of the loop of [iso_7064_mod_11_10]. *)
Definition iso_step (p : Z) (d : ascii) : Z :=
  let s := (int_of_digit d + p) mod 10 in
  let s := if s =? 0 then 10 else s in
  (2 * s) mod 11.

(** [s.isdigit()] : every character is a digit and there is one. *)
Definition str_isdigit (s : string) : bool :=
  negb (String.eqb s "") && forallb isdigit (chars s).

Definition iso_7064_mod_11_10 (full_digits : string) : bool :=
  if negb ((len full_digits =? 11) && str_isdigit full_digits) then false
  else
    let p := fold_left iso_step (removelast (chars full_digits)) 10 in
    match last (chars full_digits) with
    | Some check => ((11 - p) mod 10) =? int_of_digit check
    | None => false
    end.

End Utils.

(** ** [analyzers/claim_number_analyser.py] *)

Module VaClaimNumberRecognizer.
Import Py.

(** ["".join(c for c in pattern_text if c.isdigit())] *)
Definition only_digits (pattern_text : string) : string :=
  string_of_list_ascii (List.filter isdigit (chars pattern_text)).

(** [all(only_digits[0] == d for d in only_digits)] *)
Definition all_same (s : string) : bool :=
  match chars s with
  | [] => true
  | d0 :: _ => forallb (Ascii.eqb d0) (chars s)
  end.

Definition invalidate_result (pattern_text : string) : bool :=
  let od := only_digits pattern_text in
  if negb (len od =? 9) then true
  else if all_same od then true
  else if in_list od ["123456789"; "987654321"; "000000000"] then true
  else false.

End VaClaimNumberRecognizer.

(** ** [core/config.py] *)

Module Config.
Import Py.

Record RegexPattern := { pattern : string; pattern_score : Qc }.

Record RegexConfig := { patterns : list RegexPattern }.

Record DetectConfig := {
  methods : list string;
  regex : option RegexConfig;
  thresholds : option BaseCountryAnalyzer.Thresholds
}.

Record ValidateConfig := { fn : option string; rules : gmap string string }.

Record EntityConfig := {
  group : string;
  enabled : bool;
  detect : DetectConfig;
  return_name : option string;
  validate_fn : option string;
  validation : option ValidateConfig;
  llm : option BaseCountryAnalyzer.EntityLLM
}.

Record CountryConfig := {
  country : string;
  use_presidio_defaults : bool;
  entities : list (string * EntityConfig)
}.

(** The validator of [DetectConfig.methods]. *)
Definition _normalize_methods (v : list string) : list string :=
  match v with
  | [] => []
  | _ => List.filter (fun m => in_list m ["builtin"; "regex"; "llm"]) v
  end.

(** The fields of the models that the country analyzer reads. *)
Definition analyzer_entity (ent : EntityConfig) : BaseCountryAnalyzer.EntityConfig :=
  {| BaseCountryAnalyzer.group := group ent;
     BaseCountryAnalyzer.enabled := enabled ent;
     BaseCountryAnalyzer.detect :=
       {| BaseCountryAnalyzer.methods := methods (detect ent);
          BaseCountryAnalyzer.thresholds := thresholds (detect ent) |};
     BaseCountryAnalyzer.validate_fn := validate_fn ent;
     BaseCountryAnalyzer.validation :=
       match validation ent with
       | Some v => Some {| BaseCountryAnalyzer.fn := fn v |}
       | None => None
       end;
     BaseCountryAnalyzer.llm := llm ent |}.

Definition analyzer_config (c : CountryConfig) : BaseCountryAnalyzer.CountryConfig :=
  {| BaseCountryAnalyzer.country := country c;
     BaseCountryAnalyzer.entities :=
       map (fun '(eid, ent) => (eid, analyzer_entity ent)) (entities c) |}.

End Config.

(** ** [engine/analyzer_factory.py] *)

Module AnalyzerFactory.
Import Py Config.

(** [any(m in ent.detect.methods for m in ("regex", "llm"))] *)
Definition detects (ent : EntityConfig) : bool :=
  existsb (fun m => in_list m (methods (detect ent))) ["regex"; "llm"].

Definition build_supported_entities (cfg : CountryConfig) : list string :=
  map fst (List.filter (fun '(_, ent) => enabled ent && detects ent) (entities cfg)).

(** ["regex" in methods and ent.detect.regex and ent.detect.regex.patterns] *)
Definition has_patterns (ent : EntityConfig) : bool :=
  in_list "regex" (methods (detect ent))
  && match regex (detect ent) with
     | Some r => negb (Nat.eqb (length (patterns r)) 0)
     | None => false
     end.

Definition build_enable_flags (cfg : CountryConfig) : bool * bool :=
  fold_left
    (fun '(enable_pattern, enable_llm) '(_, ent) =>
       if negb (enabled ent) then (enable_pattern, enable_llm)
       else
         (if has_patterns ent then true else enable_pattern,
          if in_list "llm" (methods (detect ent)) then true else enable_llm))
    (entities cfg) (false, false).

(** The class of the US analyzer adds nothing to the base class, so
    that the choice of [COUNTRY_ANALYZERS] does not show. *)
Definition build_country_recognizer (cfg : CountryConfig)
    (co : BaseCountryAnalyzer.collaborators) : BaseCountryAnalyzer.analyzer :=
  let supported_entities := build_supported_entities cfg in
  let '(enable_pattern, enable_llm) := build_enable_flags cfg in
  BaseCountryAnalyzer.make (analyzer_config cfg) enable_pattern enable_llm co.

End AnalyzerFactory.

(** ** The constructor of [entity_classifier.py] *)

Module Construction.
Import Py Config EntityClassifier.

(** The indices that [custom_analyze] fills. *)
Record indices := {
  target_entities : gset string;
  group_conf : gmap string (Qc * string);
  display_name : gmap string string;
  validator_index : gmap string vinfo
}.

Definition no_indices : indices :=
  {| target_entities := ∅; group_conf := ∅; display_name := ∅; validator_index := ∅ |}.

Definition min_conf_of (ent : EntityConfig) : Qc :=
  match thresholds (detect ent) with
  | Some t => BaseCountryAnalyzer.min_confidence t
  | None => Q2Qc 1
  end.

Definition group_name_of (ent : EntityConfig) : string :=
  if String.eqb (group ent) "" then "unknown" else group ent.

(** [getattr(ent, "validate_fn", None) or (ent.validation.fn if ... else None)] *)
Definition vfn_of (ent : EntityConfig) : option string :=
  BaseCountryAnalyzer.truthy
    (match BaseCountryAnalyzer.truthy (validate_fn ent) with
     | Some f => Some f
     | None => match validation ent with
               | Some v => fn v
               | None => None
               end
     end).

Definition vrules_of (ent : EntityConfig) : gmap string string :=
  match validation ent with
  | Some v => rules v
  | None => ∅
  end.

(** The body of the loop over the entities of a country. *)
Definition index_entity (country : string) (ix : indices)
    (item : string * EntityConfig) : indices :=
  let '(ent_id, ent) := item in
  let targets :=
    if enabled ent && AnalyzerFactory.detects ent
    then {[ ent_id ]} ∪ target_entities ix
    else target_entities ix in
  if enabled ent then
    {| target_entities := targets;
       group_conf := <[ ent_id := (min_conf_of ent, group_name_of ent) ]> (group_conf ix);
       display_name :=
         match BaseCountryAnalyzer.truthy (return_name ent) with
         | Some rn => <[ ent_id := rn ]> (display_name ix)
         | None => display_name ix
         end;
       validator_index :=
         match vfn_of ent with
         | Some vfn =>
             <[ ent_id := {| v_country := country; v_fn := vfn; v_rules := vrules_of ent |} ]>
               (validator_index ix)
         | None => validator_index ix
         end |}
  else
    {| target_entities := targets;
       group_conf := group_conf ix;
       display_name := display_name ix;
       validator_index := validator_index ix |}.

Definition index_country (ix : indices) (item : string * CountryConfig) : indices :=
  fold_left (index_entity item.1) (entities item.2) ix.

(** What the constructor calls outside this file: the loader of
    [core/loader.py], a function of the name of the country; the
    construction of the Presidio engine; and the construction of the
    recognizer of a country with its registration. *)
Record environment := {
  load_country_config : string -> result CountryConfig;
  build_engine_from_configs : list CountryConfig -> result unit;
  add_recognizer : CountryConfig -> result unit
}.

(** [[load_country_config(country) for country in self.countries]] *)
Fixpoint load_all (env : environment) (countries : list string)
    : result (list CountryConfig) :=
  match countries with
  | [] => Return []
  | country :: rest =>
      cfg ← load_country_config env country;
      cfgs ← load_all env rest;
      Return (cfg :: cfgs)
  end.

(** [if not self.countries: self.countries = ["US"]] *)
Definition countries_or_default (countries : list string) : list string :=
  match countries with
  | [] => ["US"]
  | _ => countries
  end.

(** One turn of the loop over the countries; an exception of the
    loader or of the registration is caught and the country skipped. *)
Definition country_step (env : environment) (ix : indices) (country : string) : indices :=
  let body : result indices :=
    cfg ← load_country_config env country;
    _ ← add_recognizer env cfg;
    Return (index_country ix (country, cfg)) in
  match body with
  | Return ix' => ix'
  | Raise _ => ix
  end.

(** [custom_analyze] : the configurations are loaded a first time for
    the engine, where an exception ends the construction, and a
    second time inside the loop. *)
Definition custom_analyze (env : environment) (countries : list string) : result indices :=
  let countries := countries_or_default countries in
  countries_config ← load_all env countries;
  _ ← build_engine_from_configs env countries_config;
  Return (fold_left (country_step env) countries no_indices).

(** The entity definitions that reach the indices, in the order of the
    loop, each with the country it comes from. *)
Definition registered (env : environment) (country : string) : option CountryConfig :=
  match load_country_config env country with
  | Return cfg =>
      match add_recognizer env cfg with
      | Return _ => Some cfg
      | Raise _ => None
      end
  | Raise _ => None
  end.

Definition definition : Type := string * string * EntityConfig.

Definition definitions (env : environment) (countries : list string) : list definition :=
  flat_map
    (fun country =>
       match registered env country with
       | Some cfg => map (fun item => (country, item.1, item.2)) (entities cfg)
       | None => []
       end)
    (countries_or_default countries).

(** The last definition of an entity id among those that write. *)
Definition last_writer (writes : EntityConfig -> bool) (ent_id : string)
    (defs : list definition) : option definition :=
  last (List.filter (fun d => String.eqb d.1.2 ent_id && writes d.2) defs).

Definition has_return_name (ent : EntityConfig) : bool :=
  enabled ent && bool_decide (is_Some (BaseCountryAnalyzer.truthy (return_name ent))).

Definition has_validator (ent : EntityConfig) : bool :=
  enabled ent && bool_decide (is_Some (vfn_of ent)).

Definition vinfo_of (d : definition) : option vinfo :=
  vfn ← vfn_of d.2;
  Some {| v_country := d.1.1; v_fn := vfn; v_rules := vrules_of d.2 |}.

(** The classifier with these indices. *)
Definition classifier_of (ix : indices)
    (analyze : string -> result (list RecognizerResult))
    (judge_results : string -> list (list RecognizerResult) -> result (list RecognizerResult))
    (anonymize : string -> list RecognizerResult -> result (list anonymized_item * string))
    (importer : Validation.importer) (ext : ResultValidation.external) : classifier :=
  {| EntityClassifier.analyze := analyze;
     EntityClassifier.judge_results := judge_results;
     EntityClassifier.anonymize := anonymize;
     _group_conf := group_conf ix;
     _display_name := display_name ix;
     _validator_index := validator_index ix;
     EntityClassifier.importer := importer;
     EntityClassifier.ext := ext |}.

End Construction.

(** ** [app/service/classification.py] *)

Module Classification.
Import Py EntityClassifier.

Record ReqClassifier := {
  text : string;
  anonymize : bool;
  country_list : list string
}.

(** [AiDataModel] *)
Record AiDataModel := {
  data : option string;
  entityDetails : gmap string (list detail)
}.

(** The body of a response: an error message or a dumped model. *)
Inductive body : Type :=
| MissingInput
| ValidationFailure
| Document (doc : AiDataModel).

Record response := { status_code : Z; content : body }.

(** The collaborators: [ReqClassifier.model_validate], which raises
    pydantic's [ValidationError], and the constructor of the
    classifier. *)
Record service := {
  model_validate : result ReqClassifier;
  is_ValidationError : exn -> bool;
  new_classifier : list string -> result classifier
}.

Definition _get_classifier_response (srv : service) (req : ReqClassifier) : AiDataModel :=
  let doc_info := {| data := Some ""; entityDetails := ∅ |} in
  match new_classifier srv (country_list req) with
  | Raise _ => doc_info
  | Return entity_classifier_obj =>
      let '(entity_details, input_text) :=
        entity_classifier_and_anonymizer entity_classifier_obj (text req) (anonymize req) in
      {| data := if anonymize req then Some input_text else data doc_info;
         entityDetails := entity_details |}
  end.

Definition process_request (srv : service) : response :=
  match model_validate srv with
  | Return req =>
      if String.eqb (text req) "" then {| status_code := 400; content := MissingInput |}
      else {| status_code := 200; content := Document (_get_classifier_response srv req) |}
  | Raise e =>
      if is_ValidationError srv e
      then {| status_code := 400; content := ValidationFailure |}
      else {| status_code := 500;
              content := Document {| data := None; entityDetails := ∅ |} |}
  end.

End Classification.

(** ** Notions used in the further properties *)

Module Notions.
Import Py.

Section CheckDigits.
Import Utils.

(** The characters that [mrz_check_digit] gives a value. *)
Definition mrz_valid (ch : ascii) : bool :=
  match mrz_value ch with Some _ => true | None => false end.

(** The weighted sum that the loop adds to [total]. *)
Fixpoint weighted_sum (i : nat) (data : list ascii) : Z :=
  match data with
  | [] => 0
  | ch :: rest => default 0 (mrz_value ch) * weight i + weighted_sum (S i) rest
  end.

(** The two halves of a turn of [iso_7064_mod_11_10] : [s] from the
    digit and the state, and the doubling modulo 11. *)
Definition iso_shift (x : Z) : Z := if x mod 10 =? 0 then 10 else x mod 10.

End CheckDigits.

(** The first character of a string that [lstrip] returns is no
    white space, and [rstrip] keeps it. *)
Definition starts_clean (s : string) : Prop :=
  match s with
  | EmptyString => True
  | String c _ => isspace c = false
  end.

Section Spans.
Import BaseCountryAnalyzer.

(** The offsets of an entry of [map_values_to_spans]. *)
Definition span_of (r : string * Z * Z) : Z * Z := (r.1.2, r.2).

(** The entry lies in the text, is not empty, and the text between
    its offsets has the property [Q]. *)
Definition located (text : string) (Q : string -> Prop) (r : string * Z * Z) : Prop :=
  0 <= r.1.2 < r.2 /\ r.2 <= len text /\ Q (slice text r.1.2 r.2).

Definition apart (a b : string * Z * Z) : Prop :=
  overlaps (span_of a) (span_of b) = false.

(** The invariant of the loop of [map_values_to_spans] on its results
    and on the spans it has used. *)
Definition spans_ok (text : string) (Q : string -> Prop)
    (st : list (string * Z * Z) * list (Z * Z)) : Prop :=
  st.2 = map span_of st.1
  /\ ForallOrdPairs apart st.1
  /\ Forall (located text Q) st.1.

(** The threshold of an entity in [post_filter]. *)
Definition threshold (ent : EntityConfig) : Qc :=
  match thresholds (detect ent) with
  | Some t => min_confidence t
  | None => Q2Qc 0
  end.

Definition passes (self : analyzer) (r : RecognizerResult) : Prop :=
  exists ent,
    dict_get (entities (cfg self)) (entity_type r) = Some ent
    /\ enabled ent = true
    /\ (threshold ent <= score r)%Qc.

End Spans.

Section Walk.
Import EntityClassifier.

Definition starts_at (k : Z) (r : RecognizerResult) : bool := start r =? k.

(** The candidates that a state of the walk holds. *)
Definition held (w : walk) : list RecognizerResult :=
  non_overlapping_results w ++ concat (overlapping_results w) ++ current_overlap_group w.

(** Each member overlaps the one before it, by the test of the code,
    and has another type. *)
Fixpoint linked (l : list RecognizerResult) : Prop :=
  match l with
  | a :: (b :: _) as t =>
      entities_overlap a b = true /\ entity_type a <> entity_type b /\ linked t
  | _ => True
  end.

Definition well_grouped (w : walk) : Prop :=
  linked (current_overlap_group w)
  /\ Forall (fun g => (2 <= length g)%nat /\ linked g) (overlapping_results w).

(** The filters in front of the conflict resolution, one by one. *)
Definition cleared (self : classifier) (text : string) (r : RecognizerResult) : Prop :=
  ResultValidation.is_not_part_of_decimal (entity_type r) text (start r) (end_ r) = true
  /\ exists min_conf group,
      _group_conf self !! entity_type r = Some (min_conf, group)
      /\ group <> "unknown"
      /\ score r <> Q2Qc 0
      /\ (min_conf <= score r)%Qc
      /\ ResultValidation.validate_extracted_data (ext self) (entity_type r)
           (slice text (start r) (end_ r)) text = true
      /\ yaml_valid self text (slice text (start r) (end_ r)) r = true.

(** The entry of the response for a result, when no anonymized item
    moves its location. *)
Definition entry_of (self : classifier) (text : string) (value : RecognizerResult)
    : entity_response :=
  {| r_entity_type := default (entity_type value) (_display_name self !! entity_type value);
     r_location := format_location (start value) (end_ value);
     r_confidence_score := score value;
     r_entity_value := slice text (start value) (end_ value);
     r_start_index := start value;
     r_end_index := end_ value |}.

(** What [_aggregate_entities_yaml] keeps of an entry. *)
Definition detail_of (entry : entity_response) : detail :=
  {| d_location := r_location entry;
     d_confidence_score := r_confidence_score entry;
     d_entity_value := r_entity_value entry;
     d_start_index := r_start_index entry;
     d_end_index := r_end_index entry |}.

Definition details_for (key : string) (entries : list entity_response) : list detail :=
  map detail_of (List.filter (fun entry => String.eqb (r_entity_type entry) key) entries).

(** One turn of the loop of [_aggregate_entities_yaml]. *)
Definition aggregate_step (entity_details : gmap string (list detail))
    (entry : entity_response) : gmap string (list detail) :=
  <[ r_entity_type entry :=
       default [] (entity_details !! r_entity_type entry) ++ [detail_of entry] ]>
    entity_details.

End Walk.

(** One turn of the loop of [custom_analyze] on a definition. *)
Definition step_of (ix : Construction.indices) (d : Construction.definition)
    : Construction.indices :=
  Construction.index_entity d.1.1 ix (d.1.2, d.2).

End Notions.

(** ** Further example inputs *)

Module MoreExamples.
Import Py Config.

Definition entity (group_ : string) (methods_ : list string)
    (thresholds_ : option BaseCountryAnalyzer.Thresholds) (return_name_ : option string)
    : EntityConfig :=
  {| group := group_; enabled := true;
     detect := {| methods := methods_;
                  regex := Some {| patterns := [ {| pattern := "[A-Z]+-[0-9-]+";
                                                    pattern_score := Examples.half |} ] |};
                  thresholds := thresholds_ |};
     return_name := return_name_;
     validate_fn := None; validation := None; llm := None |}.

(** A configuration with an entity detected by regex and one detected
    by regex and LLM, the second without thresholds. *)
Definition us_config : CountryConfig :=
  {| country := "US"; use_presidio_defaults := false;
     entities :=
       [ ("claim-number",
          entity "insurance" ["regex"]
            (Some {| BaseCountryAnalyzer.min_confidence := Examples.half |})
            (Some "CLAIM_NUMBER"));
         ("employee-id", entity "employment" ["regex"; "llm"] None None) ] |}.

(** An environment that knows the configuration of one country. *)
Definition demo_environment : Construction.environment :=
  {| Construction.load_country_config := fun country =>
       if String.eqb country "US" then Return us_config
       else Raise (OtherError "FileNotFoundError");
     Construction.build_engine_from_configs := fun _ => Return tt;
     Construction.add_recognizer := fun _ => Return tt |}.

Definition demo_indices : Construction.indices :=
  match Construction.custom_analyze demo_environment [] with
  | Return ix => ix
  | Raise _ => Construction.no_indices
  end.

Definition quiet_collaborators : BaseCountryAnalyzer.collaborators :=
  {| BaseCountryAnalyzer.get_detection_messages := fun _ _ => [];
     BaseCountryAnalyzer.generate_entity := fun _ => None;
     BaseCountryAnalyzer.instance_method := fun _ => None;
     BaseCountryAnalyzer.importer := Examples.no_modules |}.

Definition us_recognizer : BaseCountryAnalyzer.analyzer :=
  AnalyzerFactory.build_country_recognizer us_config quiet_collaborators.

(** A result below the threshold of its entity, and one of an entity
    that the configuration does not have. *)
Definition mixed_results : list RecognizerResult :=
  [ Examples.candidate "claim-number" 6 20;
    {| entity_type := "claim-number"; start := 0; end_ := 5; score := Q2Qc (1 # 4) |};
    Examples.candidate "policy-number" 30 41;
    Examples.candidate "employee-id" 30 41 ].

End MoreExamples.

(** * Theorems *)

Import Py.

(** ** The entry point with anonymization requested *)

Section Anonymize.
Import EntityClassifier.
Variable self : classifier.

(** C3: with [anonymize_snippets=True] the call of [anonymize_response]
    leaves out [input_text] and raises, whatever the analyzer results
    are; the handler then returns the empty entity details together
    with the original input text. *)
Theorem anonymize_request_returns_original (input_text : string) :
  (forall analyzer_results,
      anonymize_response self analyzer_results None = Raise (TypeError true))
  /\ entity_classifier_and_anonymizer self input_text true = (∅, input_text).
Proof.
  split; [reflexivity |].
  unfold entity_classifier_and_anonymizer, classify_body.
  destruct (analyze_response self input_text) as [results | e]; reflexivity.
Qed.

End Anonymize.

(** ** The LLM-assisted detection pass *)

Section LlmPass.
Import BaseCountryAnalyzer.
Variable self : analyzer.

Lemma post_filter_nil (text : string) : post_filter self text [] = Return [].
Proof. reflexivity. Qed.

(** C4: [_llm_detect_and_validate] returns no candidate and sends no
    message to the model, for every text and every target set; hence
    [analyze] returns the empty list, without a model call. *)
Theorem llm_pass_emits_nothing (text : string) (target_ids : option (list string))
    (entities : list string) :
  _llm_detect_and_validate self text target_ids = ([], [])
  /\ analyze self text entities = ([], Return []).
Proof.
  split; [reflexivity |].
  unfold analyze.
  destruct (_enable_llm self); cbn; reflexivity.
Qed.

End LlmPass.

(** ** The validator dispatcher *)

Section Dispatch.
Import Validation Spec.
Variable imp : importer.






(** A plain function of [n] parameters, [n] from 1 to 4, whose body
    raises no [TypeError]: the richer signatures fail on the arity, the
    body runs once, on the signature of its length, and decides. *)
Lemma validate_fixed_arity (n : nat) body (fn value text country : string)
    (rules : option (gmap string string)) (args : list arg) :
  resolve imp fn country = Return (def n body) ->
  (1 <= n <= 4)%nat ->
  signatures value text country (default ∅ rules) !! (4 - n)%nat = Some args ->
  ~ raises_TypeError (body args) ->
  validate imp fn value text country rules
  = (take (5 - n) (signatures value text country (default ∅ rules)),
     try_except_Exception (body args) false).
Proof.
  intros Hres Hn Hargs Hbody. unfold validate. rewrite Hres.
  assert (Hcases : n = 1%nat \/ n = 2%nat \/ n = 3%nat \/ n = 4%nat) by lia.
  destruct Hcases as [-> | [-> | [-> | ->]]]; cbn in Hargs; injection Hargs as <-;
    unfold _call_flex, attempt, apply, def; cbn;
    destruct (body _) as [b | e] eqn:E; cbn; try reflexivity;
    destruct e; try reflexivity;
    exfalso; apply Hbody; eexists; reflexivity.
Qed.

End Dispatch.


(** ** Per-type checks of [result_validation.py] *)

Section PerType.
Import ResultValidation.
Variable ext : external.

Lemma chars_length (s : string) : length (chars s) = String.length s.
Proof. induction s as [| c s IH]; cbn; [reflexivity | f_equal; exact IH]. Qed.

Lemma strip_non_digits_count (s : string) :
  Z.of_nat (length (strip_non_digits s)) = count_digits s.
Proof. reflexivity. Qed.


(** The validator of the US analyzer has the bound 17 on the digits,
    but also the bound 15 on the whole value. *)
Lemma validate_bank_account_number_bound (value text : string) :
  USAnalyzer.validate_bank_account_number value text = true ->
  6 <= count_digits value <= 15.
Proof.
  unfold USAnalyzer.validate_bank_account_number.
  rewrite strip_non_digits_count.
  rewrite !andb_true_iff, !Z.leb_le.
  intros (((((Hlen & _) & _) & _) & _) & (Hlo & _)).
  split; [exact Hlo |].
  unfold count_digits, len in *.
  pose proof (List.filter_length_le isdigit (chars value)) as Hf.
  rewrite chars_length in Hf. lia.
Qed.



End PerType.




(** ** The decimal-adjacency filter *)

Section Decimal.
Import ResultValidation Spec.

Lemma getitem_char_at (text : string) (i : Z) :
  0 <= i -> getitem text i = char_at text i.
Proof.
  intros Hi. unfold getitem, char_at.
  destruct ((0 <=? i) && (i <? len text)) eqn:E; [reflexivity |].
  destruct ((- len text <=? i) && (i <? 0)) eqn:E'; [| reflexivity].
  apply andb_true_iff in E' as [_ E']. apply Z.ltb_lt in E'. lia.
Qed.

Lemma char_at_in_range (text : string) (i : Z) :
  0 <= i < len text -> exists c, char_at text i = Some c.
Proof.
  intros [H0 H1]. unfold char_at.
  replace ((0 <=? i) && (i <? len text)) with true
    by (symmetry; apply andb_true_iff; split; [apply Z.leb_le | apply Z.ltb_lt]; lia).
  destruct (String.get (Z.to_nat i) text) as [c |] eqn:E; [eauto |].
  exfalso.
  assert (Hn : (Z.to_nat i < String.length text)%nat) by (unfold len in H1; lia).
  clear -E Hn. revert E Hn. generalize (Z.to_nat i). intros n. revert n.
  induction text as [| c t IH]; intros n E Hn; cbn in *; [lia |].
  destruct n; [discriminate |]. apply (IH n E). lia.
Qed.

Lemma char_at_out_of_range (text : string) (i : Z) :
  len text <= i -> char_at text i = None.
Proof.
  intros H. unfold char_at.
  destruct (i <? len text) eqn:E; [apply Z.ltb_lt in E; lia |].
  rewrite andb_false_r. reflexivity.
Qed.

(** Away from the offset 1 behind a leading point, the filter is the
    property of the specification. *)
Lemma decimal_filter_agrees (label text : string) (start_index end_index : Z) :
  in_list (lower label) decimal_checked_labels = true ->
  0 <= start_index <= end_index -> end_index <= len text ->
  ~ (start_index = 1 /\ point_at text 0 = true) ->
  is_not_part_of_decimal label text start_index end_index
  = negb (adjacent_to_digit text start_index end_index).
Proof.
  intros Hlab Hse Hel Hne.
  unfold is_not_part_of_decimal, is_not_part_of_decimal_body, adjacent_to_digit.
  rewrite Hlab.
  unfold digit_or_point, digit_at, point_at in *.
  assert (Hbefore :
    (if 0 <? start_index
     then match getitem text (start_index - 1) with
          | Some char_before =>
              if isdigit char_before then Return true
              else if Ascii.eqb char_before "."
                   then match getitem text (start_index - 2) with
                        | Some d => Return (isdigit d)
                        | None => Raise IndexError
                        end
                   else Return false
          | None => Raise IndexError
          end
     else Return false)
    = Return
        (match char_at text (start_index - 1) with Some c => isdigit c | None => false end
         || (match char_at text (start_index - 1) with
             | Some c => Ascii.eqb c "." | None => false end
             && match char_at text (start_index - 2) with
                | Some c => isdigit c | None => false end))).
  { destruct (0 <? start_index) eqn:Hs.
    - apply Z.ltb_lt in Hs.
      rewrite getitem_char_at by lia.
      destruct (char_at_in_range text (start_index - 1)) as [c Hc]; [lia |].
      rewrite Hc. destruct (isdigit c); [reflexivity |]. cbn.
      destruct (Ascii.eqb c ".") eqn:Hp; [| reflexivity].
      assert (2 <= start_index).
      { destruct (Z.eq_dec start_index 1) as [-> |]; [| lia].
        exfalso. apply Hne. split; [reflexivity |].
        replace (1 - 1) with 0 in Hc by lia. rewrite Hc. exact Hp. }
      rewrite getitem_char_at by lia.
      destruct (char_at_in_range text (start_index - 2)) as [d Hd]; [lia |].
      rewrite Hd. reflexivity.
    - apply Z.ltb_ge in Hs.
      assert (char_at text (start_index - 1) = None) as ->.
      { unfold char_at. destruct (0 <=? start_index - 1) eqn:E;
          [apply Z.leb_le in E; lia | reflexivity]. }
      reflexivity. }
  rewrite Hbefore. clear Hbefore. cbn.
  set (b := _ || _ && _).
  destruct b; [reflexivity |]. cbn.
  destruct (end_index <? len text) eqn:He.
  - apply Z.ltb_lt in He.
    rewrite getitem_char_at by lia.
    destruct (char_at_in_range text end_index) as [c Hc]; [lia |].
    rewrite Hc. destruct (isdigit c); [reflexivity |]. cbn.
    destruct (Ascii.eqb c "."); [| reflexivity].
    rewrite getitem_char_at by lia.
    destruct (Z_lt_le_dec (end_index + 1) (len text)) as [Hin | Hout].
    + destruct (char_at_in_range text (end_index + 1)) as [d Hd]; [lia |].
      rewrite Hd. cbn. destruct (isdigit d); reflexivity.
    + rewrite char_at_out_of_range by lia. reflexivity.
  - apply Z.ltb_ge in He.
    rewrite (char_at_out_of_range text end_index) by lia. reflexivity.
Qed.

(** The example of the specification: a match strictly inside the
    literal of "Total: 1234567890.12" is rejected. *)
Lemma decimal_filter_rejects_inner_match :
  slice "Total: 1234567890.12" 8 17 = "234567890"
  /\ is_not_part_of_decimal "us_ssn" "Total: 1234567890.12" 8 17 = false.
Proof. split; reflexivity. Qed.

(** C7, at the input where the code leaves the claim: the candidate
    starts at offset 1 behind a leading point, no digit stands before
    or after it, and the filter rejects it because [text[-1]], the
    last character of the text, is a digit; with another last
    character the same candidate is accepted. *)
Theorem decimal_filter_reads_last_character :
  slice ".536-90-4399 room 5" 1 12 = "536-90-4399"
  /\ adjacent_to_digit ".536-90-4399 room 5" 1 12 = false
  /\ is_not_part_of_decimal "us_ssn" ".536-90-4399 room 5" 1 12 = false
  /\ is_not_part_of_decimal "us_ssn" ".536-90-4399 room A" 1 12 = true.
Proof. repeat split; reflexivity. Qed.

End Decimal.

(** ** The consecutive-digit heuristics *)

Section Runs.
Import ResultValidation Spec.

Variable step_ok : Z -> Z -> bool.
Variable min_consecutive : Z.

Lemma chain_cons2 (a b : Z) (l : list Z) :
  chain step_ok (a :: b :: l) = step_ok b a && chain step_ok (b :: l).
Proof. reflexivity. Qed.

(** The loop, started in the middle of a run of [count] digits that
    ends with [prev]: it finds a run that reaches the minimum, where
    a run that starts at [prev] counts with what stands before it. *)
Lemma scan_runs_spec (l : list Z) :
  forall prev count,
    1 <= count < min_consecutive ->
    scan_runs step_ok min_consecutive prev count l = true
    <-> exists pre run post,
        prev :: l = pre ++ run ++ post
        /\ chain step_ok run = true
        /\ min_consecutive
           <= Z.of_nat (length run) + match pre with [] => count - 1 | _ => 0 end.
Proof.
  induction l as [| d l IH]; intros prev count Hc.
  - cbn. split; [discriminate |].
    intros (pre & run & post & Heq & _ & Hlen). exfalso.
    apply (f_equal (@length Z)) in Heq. rewrite !length_app in Heq. cbn in Heq.
    destruct pre; cbn in *; lia.
  - cbn [scan_runs]. destruct (step_ok d prev) eqn:Hstep.
    + destruct (min_consecutive <=? count + 1) eqn:Hmin.
      * apply Z.leb_le in Hmin. split; [intros _ | reflexivity].
        exists [], [prev; d], l. cbn. rewrite Hstep. repeat split; lia.
      * apply Z.leb_gt in Hmin. rewrite (IH d (count + 1)) by lia. split.
        -- intros (pre & run & post & Heq & Hch & Hlen).
           destruct pre as [| p pre].
           ++ destruct run as [| r run]; [cbn in Hlen; lia |].
              cbn in Heq. injection Heq as <- Heq.
              exists [], (prev :: d :: run), post. cbn [app].
              rewrite chain_cons2, Hstep, Hch, Heq. cbn [length] in *.
              repeat split; lia.
           ++ exists (prev :: p :: pre), run, post. cbn [app]. rewrite Heq.
              repeat split; auto.
        -- intros (pre & run & post & Heq & Hch & Hlen).
           destruct pre as [| p pre].
           ++ destruct run as [| r [| r' run]]; [cbn in Hlen; lia | cbn in Hlen; lia |].
              cbn in Heq. injection Heq as <- <- Heq.
              exists [], (d :: run), post. cbn [app]. rewrite Heq.
              rewrite chain_cons2 in Hch. apply andb_true_iff in Hch as [_ Hch].
              cbn [length] in *. repeat split; [exact Hch | lia].
           ++ cbn in Heq. injection Heq as <- Heq.
              exists pre, run, post. repeat split; auto.
              destruct pre; lia.
    + rewrite (IH d 1) by lia. split.
      * intros (pre & run & post & Heq & Hch & Hlen).
        exists (prev :: pre), run, post. cbn [app]. rewrite Heq.
        repeat split; auto. destruct pre; lia.
      * intros (pre & run & post & Heq & Hch & Hlen).
        destruct pre as [| p pre].
        -- destruct run as [| r [| r' run]]; [cbn in Hlen; lia | cbn in Hlen; lia |].
           cbn in Heq. injection Heq as <- <- Heq.
           rewrite chain_cons2, Hstep in Hch. discriminate.
        -- cbn in Heq. injection Heq as <- Heq.
           exists pre, run, post. repeat split; auto.
           destruct pre; lia.
Qed.

Lemma filter_all_length {A} (f : A -> bool) (l : list A) :
  length (List.filter f l) = length l <-> forallb f l = true.
Proof.
  induction l as [| a l IH]; cbn; [tauto |].
  pose proof (List.filter_length_le f l) as Hle.
  destruct (f a); cbn.
  - rewrite <- IH. split; lia.
  - split; [lia | discriminate].
Qed.

Lemma filter_all {A} (f : A -> bool) (l : list A) :
  forallb f l = true -> List.filter f l = l.
Proof.
  induction l as [| a l IH]; cbn; [reflexivity |].
  intros H. apply andb_true_iff in H as [Ha Hl]. rewrite Ha, IH; auto.
Qed.

Lemma forallb_app_iff {A} (f : A -> bool) (l1 l2 : list A) :
  forallb f (l1 ++ l2) = true <-> forallb f l1 = true /\ forallb f l2 = true.
Proof. rewrite forallb_app, andb_true_iff. reflexivity. Qed.

(** The heuristic for a minimum of at least 2: the value is made of
    digits only and contains a run. *)
Lemma has_consecutive_spec (s : string) :
  1 < min_consecutive ->
  has_consecutive step_ok s min_consecutive = true
  <-> all_digits s /\ contains_run step_ok min_consecutive s.
Proof.
  intros Hmin. unfold has_consecutive, digits_of, all_digits, len.
  rewrite length_map, <- chars_length.
  destruct (Z.of_nat (length (List.filter isdigit (chars s))) <? min_consecutive) eqn:Hshort.
  { apply Z.ltb_lt in Hshort. split; [discriminate |].
    intros (Hall & pre & run & post & Heq & Hlen & _). exfalso.
    rewrite (filter_all _ _ Hall), Heq, !length_app in Hshort. lia. }
  apply Z.ltb_ge in Hshort.
  destruct (Z.of_nat (length (List.filter isdigit (chars s))) =? Z.of_nat (length (chars s)))
    eqn:Hsame; cbn [negb].
  2:{ apply Z.eqb_neq in Hsame. split; [discriminate |].
      intros (Hall & _). exfalso. apply Hsame.
      rewrite (filter_all _ _ Hall). reflexivity. }
  apply Z.eqb_eq in Hsame.
  assert (Hall : forallb isdigit (chars s) = true)
    by (apply filter_all_length; lia).
  rewrite (filter_all _ _ Hall) in *.
  destruct (chars s) as [| c cs] eqn:Hcs; [cbn in Hshort; lia |].
  cbn [map]. rewrite scan_runs_spec by lia. split.
  - intros (pre & run & post & Heq & Hch & Hlen).
    split; [exact Hall |].
    change (int_of_digit c :: map int_of_digit cs) with (map int_of_digit (c :: cs)) in Heq.
    apply map_eq_app in Heq as (cpre & crest & Hsplit & Hpre & Hrest).
    apply map_eq_app in Hrest as (crun & cpost & Hsplit' & Hrun & Hpost).
    exists cpre, crun, cpost. subst crest.
    rewrite Hsplit in Hall.
    apply forallb_app_iff in Hall as [_ Hall].
    apply forallb_app_iff in Hall as [Hall _].
    split; [rewrite Hcs; exact Hsplit |].
    split; [rewrite <- Hrun, length_map in Hlen; destruct pre; cbn beta iota in Hlen; lia |].
    split; [exact Hall |].
    rewrite Hrun. exact Hch.
  - intros (_ & cpre & crun & cpost & Heq & Hlen & _ & Hch).
    exists (map int_of_digit cpre), (map int_of_digit crun), (map int_of_digit cpost).
    split.
    { change (int_of_digit c :: map int_of_digit cs) with (map int_of_digit (c :: cs)).
      rewrite <- Hcs, Heq, !map_app. reflexivity. }
    split; [exact Hch |].
    rewrite length_map. destruct (map int_of_digit cpre); cbn beta iota; lia.
Qed.

End Runs.

Section Heuristics.
Import ResultValidation Spec.




End Heuristics.


(** ** Locations after anonymization *)

Section Locations.
Import EntityClassifier Spec.
Variable self : classifier.


Lemma Forall_insert_by_start (P : RecognizerResult -> Prop) x l :
  P x -> Forall P l -> Forall P (insert_by_start x l).
Proof.
  intros Hx Hl. induction Hl as [| y l Hy Hl IH]; cbn.
  - constructor; [exact Hx | constructor].
  - destruct (start x <=? start y); repeat constructor; auto.
Qed.





End Locations.



(** ** Conflict resolution *)

Section Walk.
Import EntityClassifier Spec.

(** *** The stream that reaches the resolution *)

Lemma loop_is_filter self text (l : list RecognizerResult) :
  forall w,
    fold_left (loop_step self text) l w
    = fold_left resolve (List.filter (accepted self text) l) w.
Proof.
  induction l as [| e l IH]; intros w; cbn; [reflexivity |].
  unfold loop_step at 2. destruct (accepted self text e); cbn; apply IH.
Qed.

Lemma insert_by_start_sorted x l :
  start_sorted l -> start_sorted (insert_by_start x l).
Proof.
  unfold start_sorted. induction 1 as [| y l Hs IH Hy]; cbn.
  - repeat constructor.
  - destruct (Z.leb_spec (start x) (start y)) as [Hle | Hgt].
    + constructor; [constructor; assumption |].
      constructor; [exact Hle |].
      eapply Forall_impl; [exact Hy |]. cbn. intros z Hz. lia.
    + constructor; [exact IH |].
      apply Forall_insert_by_start; [lia | exact Hy].
Qed.

Lemma sorted_by_start_sorted l : start_sorted (sorted_by_start l).
Proof.
  induction l as [| x l IH]; cbn; [constructor |].
  apply insert_by_start_sorted, IH.
Qed.




(** *** The overlap test on a sorted stream *)





(** *** The walk of the code and the walk of the specification *)




(** *** What is accepted without arbitration *)

Lemma ForallOrdPairs_snoc {A} (R : A -> A -> Prop) (l : list A) (x : A) :
  ForallOrdPairs R l -> Forall (fun a => R a x) l -> ForallOrdPairs R (l ++ [x]).
Proof.
  induction 1 as [| a l Ha Hl IH]; intros Hx; cbn.
  - repeat constructor.
  - apply Forall_cons in Hx as [Hax Hx]. constructor; [| apply IH, Hx].
    apply Forall_app. split; [exact Ha | repeat constructor; exact Hax].
Qed.








End Walk.






(** ** Remarks on the conflict resolution *)

(** Outside a sorted stream the test of the code is not the
    intersection of the ranges: a candidate of the same type that lies
    before the other one passes it. *)
Lemma entities_overlap_same_type_before :
  EntityClassifier.entities_overlap
    (Examples.candidate "claim-number" 10 20) (Examples.candidate "claim-number" 0 5) = true
  /\ Spec.ranges_intersect
       (Examples.candidate "claim-number" 10 20) (Examples.candidate "claim-number" 0 5) = false
  /\ EntityClassifier.entities_overlap
       (Examples.candidate "claim-number" 10 20) (Examples.candidate "employee-id" 0 5) = false.
Proof. repeat split; reflexivity. Qed.

(** The verdicts of the arbitration are merged as they come: when both
    members of an overlap group are kept, both are returned. *)
Lemma arbitration_verdicts_are_merged :
  exists res,
    EntityClassifier.analyze_response
      (Examples.demo Examples.grouped_candidates
         [Examples.candidate "claim-number" 6 20; Examples.candidate "employee-id" 8 12] [])
      Examples.demo_text = Return res
    /\ Examples.candidate "claim-number" 6 20 ∈ res
    /\ Examples.candidate "employee-id" 8 12 ∈ res
    /\ Spec.ranges_intersect (Examples.candidate "claim-number" 6 20)
         (Examples.candidate "employee-id" 8 12) = true.
Proof.
  eexists. split; [vm_compute; reflexivity |].
  repeat split; try (apply list_elem_of_In; cbn; auto).
Qed.

(** * Further properties *)

(** ** Check digits and tokens of [core/utils.py] *)

Section CheckDigits.
Import Utils Notions.

Lemma chars_string_of_list (l : list ascii) : chars (string_of_list_ascii l) = l.
Proof. apply list_ascii_of_string_of_list_ascii. Qed.

Lemma string_of_chars (s : string) : string_of_list_ascii (chars s) = s.
Proof. apply string_of_list_ascii_of_string. Qed.

Lemma chars_append (s t : string) : chars (s +:+ t) = chars s ++ chars t.
Proof.
  unfold chars. induction s as [| c s IH]; [reflexivity |].
  change (String c s +:+ t) with (String c (s +:+ t)). cbn. f_equal. exact IH.
Qed.

Lemma mrz_loop_valid (data : list ascii) :
  forall i total,
    forallb mrz_valid data = true ->
    mrz_loop i total data = (total + weighted_sum i data) mod 10.
Proof.
  induction data as [| ch rest IH]; intros i total Hv; cbn.
  - f_equal. lia.
  - cbn in Hv. apply andb_true_iff in Hv as [Hch Hv]. unfold mrz_valid in Hch.
    destruct (mrz_value ch) as [val |]; [| discriminate].
    rewrite IH by exact Hv. cbn. f_equal. lia.
Qed.

Lemma mrz_loop_invalid (data : list ascii) :
  forall i total, forallb mrz_valid data = false -> mrz_loop i total data = -1.
Proof.
  induction data as [| ch rest IH]; intros i total Hv; cbn in *; [discriminate |].
  unfold mrz_valid in Hv at 1.
  destruct (mrz_value ch) as [val |]; [| reflexivity].
  apply IH. exact Hv.
Qed.

(** X1: [mrz_check_digit] returns -1 exactly when the data holds a
    character that is no digit, no capital letter and no filler; on
    every other input, the empty one included, it returns a digit. *)
Theorem mrz_check_digit_range (data : string) :
  (forallb mrz_valid (chars data) = true -> 0 <= mrz_check_digit data <= 9)
  /\ (forallb mrz_valid (chars data) = false -> mrz_check_digit data = -1).
Proof.
  unfold mrz_check_digit. split; intros Hv.
  - rewrite mrz_loop_valid by exact Hv.
    pose proof (Z.mod_pos_bound (0 + weighted_sum 0 (chars data)) 10 ltac:(lia)). lia.
  - apply mrz_loop_invalid, Hv.
Qed.

Lemma weight_cases (i : nat) : weight i = 7 \/ weight i = 3 \/ weight i = 1.
Proof.
  unfold weight. destruct (i mod 3)%nat as [| [| n]]; auto.
Qed.

Lemma weighted_sum_app (pre post : list ascii) :
  forall i,
    weighted_sum i (pre ++ post)
    = weighted_sum i pre + weighted_sum (i + length pre) post.
Proof.
  induction pre as [| c pre IH]; intros i; cbn.
  - rewrite Nat.add_0_r. reflexivity.
  - rewrite IH. replace (S i + length pre)%nat with (i + S (length pre))%nat by lia. lia.
Qed.

Lemma mrz_value_digit (d : ascii) :
  isdigit d = true -> mrz_value d = Some (int_of_digit d) /\ 0 <= int_of_digit d <= 9.
Proof.
  intros Hd. unfold mrz_value, int_of_digit. rewrite Hd. split; [reflexivity |].
  unfold isdigit in Hd. apply andb_true_iff in Hd as [H1 H2].
  apply Z.leb_le in H1, H2. lia.
Qed.

Lemma int_of_digit_inj (d d' : ascii) :
  int_of_digit d = int_of_digit d' -> d = d'.
Proof.
  unfold int_of_digit, code. intros H.
  rewrite <- (ascii_nat_embedding d), <- (ascii_nat_embedding d').
  f_equal. lia.
Qed.

(** X2: A data string that differs from another one in one digit has
    another check digit: the weights 7, 3 and 1 have no common factor
    with 10. *)
Theorem mrz_detects_digit_substitution (pre post : list ascii) (d d' : ascii) :
  forallb mrz_valid pre = true -> forallb mrz_valid post = true ->
  isdigit d = true -> isdigit d' = true -> d <> d' ->
  mrz_check_digit (string_of_list_ascii (pre ++ d :: post))
  <> mrz_check_digit (string_of_list_ascii (pre ++ d' :: post)).
Proof.
  intros Hpre Hpost Hd Hd' Hne. unfold mrz_check_digit.
  destruct (mrz_value_digit d Hd) as [Hv Hr].
  destruct (mrz_value_digit d' Hd') as [Hv' Hr'].
  rewrite !chars_string_of_list.
  rewrite !mrz_loop_valid.
  2,3: rewrite forallb_app; cbn; unfold mrz_valid at 2; rewrite ?Hv, ?Hv', Hpre, Hpost;
       reflexivity.
  rewrite !weighted_sum_app. cbn [weighted_sum]. rewrite Hv, Hv'.
  pose proof (weight_cases (0 + length pre)) as Hw.
  set (w := weight (0 + length pre)) in *. cbn [default from_option id].
  assert (Hdiff : int_of_digit d <> int_of_digit d')
    by (intros E; apply Hne, int_of_digit_inj, E).
  set (a := int_of_digit d) in *. set (b := int_of_digit d') in *.
  set (T := weighted_sum 0 pre). set (U := weighted_sum _ post).
  clearbody a b T U. clear -Hr Hr' Hdiff Hw.
  intros E. apply Hdiff.
  assert (Hm : ((a - b) * w) mod 10 = 0).
  { replace ((a - b) * w) with ((0 + (T + (a * w + U))) - (0 + (T + (b * w + U)))) by ring.
    rewrite Zminus_mod, E, Z.sub_diag. reflexivity. }
  destruct Hw as [-> | [-> | ->]];
    apply Z.mod_divide in Hm; try lia; destruct Hm as [k Hk]; lia.
Qed.

Lemma iso_step_range (p : Z) (d : ascii) : 1 <= iso_step p d <= 10.
Proof.
  unfold iso_step.
  pose proof (Z.mod_pos_bound (int_of_digit d + p) 10 ltac:(lia)) as Hs.
  destruct ((int_of_digit d + p) mod 10 =? 0) eqn:E.
  - vm_compute. split; discriminate.
  - apply Z.eqb_neq in E.
    set (s := (int_of_digit d + p) mod 10) in *.
    assert (Hc : s = 1 \/ s = 2 \/ s = 3 \/ s = 4 \/ s = 5 \/ s = 6 \/ s = 7 \/ s = 8 \/ s = 9)
      by lia.
    clearbody s.
    destruct Hc as [-> | [-> | [-> | [-> | [-> | [-> | [-> | [-> | ->]]]]]]]];
      vm_compute; split; discriminate.
Qed.

Lemma iso_fold_range (l : list ascii) :
  forall p, 1 <= p <= 10 -> 1 <= fold_left iso_step l p <= 10.
Proof.
  induction l as [| d l IH]; intros p Hp; cbn; [exact Hp |].
  apply IH, iso_step_range.
Qed.

Lemma digit_range (d : ascii) : isdigit d = true -> 0 <= int_of_digit d <= 9.
Proof. intros H. apply mrz_value_digit, H. Qed.

Lemma iso_step_unfold (p : Z) (d : ascii) :
  iso_step p d = (2 * iso_shift (int_of_digit d + p)) mod 11.
Proof. reflexivity. Qed.

Lemma iso_shift_range (x : Z) : 1 <= iso_shift x <= 10.
Proof.
  unfold iso_shift. pose proof (Z.mod_pos_bound x 10 ltac:(lia)).
  destruct (x mod 10 =? 0) eqn:E; rewrite ?Z.eqb_eq, ?Z.eqb_neq in E; lia.
Qed.

Lemma iso_shift_inj (x y : Z) :
  -9 <= x - y <= 9 -> iso_shift x = iso_shift y -> x = y.
Proof.
  unfold iso_shift. intros Hxy H.
  pose proof (Z.mod_pos_bound x 10 ltac:(lia)).
  pose proof (Z.mod_pos_bound y 10 ltac:(lia)).
  assert (Hm : x mod 10 = y mod 10).
  { destruct (x mod 10 =? 0) eqn:E1; destruct (y mod 10 =? 0) eqn:E2;
      rewrite ?Z.eqb_eq, ?Z.eqb_neq in *; lia. }
  rewrite (Z.div_mod x 10), (Z.div_mod y 10) in Hxy |- * by lia.
  rewrite Hm in *. lia.
Qed.

Lemma double_mod_11_inj (s t : Z) :
  1 <= s <= 10 -> 1 <= t <= 10 -> (2 * s) mod 11 = (2 * t) mod 11 -> s = t.
Proof.
  intros Hs Ht H.
  assert (Hm : (2 * (s - t)) mod 11 = 0).
  { replace (2 * (s - t)) with (2 * s - 2 * t) by ring.
    rewrite Zminus_mod, H, Z.sub_diag. reflexivity. }
  apply Z.mod_divide in Hm; [| lia]. destruct Hm as [k Hk]. lia.
Qed.

Lemma iso_step_inj_digit (p : Z) (d d' : ascii) :
  isdigit d = true -> isdigit d' = true ->
  iso_step p d = iso_step p d' -> d = d'.
Proof.
  intros Hd Hd' H. apply int_of_digit_inj.
  apply digit_range in Hd, Hd'. rewrite !iso_step_unfold in H.
  apply double_mod_11_inj in H; auto using iso_shift_range.
  apply iso_shift_inj in H; lia.
Qed.

Lemma iso_step_inj_state (p p' : Z) (d : ascii) :
  1 <= p <= 10 -> 1 <= p' <= 10 ->
  iso_step p d = iso_step p' d -> p = p'.
Proof.
  intros Hp Hp' H. rewrite !iso_step_unfold in H.
  apply double_mod_11_inj in H; auto using iso_shift_range.
  apply iso_shift_inj in H; lia.
Qed.

Lemma iso_fold_inj (l : list ascii) :
  forall p p',
    1 <= p <= 10 -> 1 <= p' <= 10 ->
    fold_left iso_step l p = fold_left iso_step l p' -> p = p'.
Proof.
  induction l as [| d l IH]; intros p p' Hp Hp' H; cbn in *; [exact H |].
  apply (iso_step_inj_state p p' d Hp Hp').
  apply IH; auto using iso_step_range.
Qed.

(** The value of [iso_7064_mod_11_10] on eleven digits. *)
Lemma iso_on_digits (body : list ascii) (check : ascii) :
  length body = 10%nat -> forallb isdigit body = true -> isdigit check = true ->
  iso_7064_mod_11_10 (string_of_list_ascii (body ++ [check]))
  = ((11 - fold_left iso_step body 10) mod 10 =? int_of_digit check).
Proof.
  intros Hlen Hb Hc. unfold iso_7064_mod_11_10, str_isdigit, len.
  rewrite <- chars_length, chars_string_of_list, length_app, Hlen.
  rewrite forallb_app, Hb. cbn [length forallb]. rewrite Hc.
  destruct body as [| b body]; [discriminate |].
  cbn [app string_of_list_ascii String.eqb negb andb Nat.add Z.of_nat].
  change (Z.of_nat 11 =? 11) with true. cbn [negb andb].
  change (b :: body ++ [check]) with ((b :: body) ++ [check]).
  rewrite removelast_last, last_snoc. reflexivity.
Qed.

Lemma check_digit_char (v : Z) :
  0 <= v <= 9 ->
  isdigit (ascii_of_nat (48 + Z.to_nat v)) = true
  /\ int_of_digit (ascii_of_nat (48 + Z.to_nat v)) = v.
Proof.
  intros Hv. unfold isdigit, int_of_digit, code.
  rewrite nat_ascii_embedding by lia.
  split; [| lia].
  apply andb_true_iff. split; apply Z.leb_le; lia.
Qed.

(** X3: For ten digits there is exactly one check digit that
    [iso_7064_mod_11_10] accepts behind them. *)
Theorem iso_7064_unique_check_digit (body : list ascii) :
  length body = 10%nat -> forallb isdigit body = true ->
  exists check,
    isdigit check = true
    /\ iso_7064_mod_11_10 (string_of_list_ascii (body ++ [check])) = true
    /\ forall c, isdigit c = true ->
                 iso_7064_mod_11_10 (string_of_list_ascii (body ++ [c])) = true ->
                 c = check.
Proof.
  intros Hlen Hb.
  pose proof (iso_fold_range body 10 ltac:(lia)) as Hp.
  set (p := fold_left iso_step body 10) in *.
  pose proof (Z.mod_pos_bound (11 - p) 10 ltac:(lia)) as Hv.
  destruct (check_digit_char ((11 - p) mod 10) ltac:(lia)) as [Hd Hi].
  exists (ascii_of_nat (48 + Z.to_nat ((11 - p) mod 10))).
  split; [exact Hd |]. split.
  - rewrite iso_on_digits by assumption. fold p. rewrite Hi. apply Z.eqb_refl.
  - intros c Hc Hok. rewrite iso_on_digits in Hok by assumption. fold p in Hok.
    apply Z.eqb_eq in Hok. apply int_of_digit_inj. congruence.
Qed.

(** X4: A number that [iso_7064_mod_11_10] accepts is no longer accepted
    when one of its eleven digits is replaced by another digit. *)
Theorem iso_7064_detects_digit_substitution (pre post : list ascii) (d d' : ascii) :
  length (pre ++ d :: post) = 11%nat ->
  forallb isdigit pre = true -> forallb isdigit post = true ->
  isdigit d = true -> isdigit d' = true -> d <> d' ->
  iso_7064_mod_11_10 (string_of_list_ascii (pre ++ d :: post)) = true ->
  iso_7064_mod_11_10 (string_of_list_ascii (pre ++ d' :: post)) = false.
Proof.
  intros Hlen Hpre Hpost Hd Hd' Hne Hok.
  destruct post as [| c post _] using rev_ind.
  - rewrite length_app in Hlen. cbn in Hlen.
    rewrite iso_on_digits in Hok |- * by (auto; lia).
    apply Z.eqb_eq in Hok. apply Z.eqb_neq. rewrite Hok.
    intros E. apply Hne, int_of_digit_inj, E.
  - rewrite forallb_app in Hpost. cbn in Hpost.
    apply andb_true_iff in Hpost as [Hpost Hc].
    apply andb_true_iff in Hc as [Hc _].
    rewrite !length_app in Hlen. cbn in Hlen. rewrite length_app in Hlen. cbn in Hlen.
    change (pre ++ d :: post ++ [c]) with (pre ++ (d :: post) ++ [c]) in Hok.
    change (pre ++ d' :: post ++ [c]) with (pre ++ (d' :: post) ++ [c]).
    rewrite app_assoc in Hok |- *.
    rewrite iso_on_digits in Hok |- *;
      try (rewrite ?length_app; cbn; lia);
      try (rewrite forallb_app; cbn; rewrite Hpre, Hpost, ?Hd, ?Hd'; reflexivity);
      try exact Hc.
    apply Z.eqb_eq in Hok. apply Z.eqb_neq. rewrite <- Hok.
    rewrite !fold_left_app. cbn [fold_left].
    pose proof (iso_fold_range pre 10 ltac:(lia)) as Hp.
    set (p := fold_left iso_step pre 10) in *.
    pose proof (iso_fold_range post (iso_step p d) (iso_step_range p d)) as H1.
    pose proof (iso_fold_range post (iso_step p d') (iso_step_range p d')) as H2.
    intros E.
    assert (Hq : fold_left iso_step post (iso_step p d')
                 = fold_left iso_step post (iso_step p d)).
    { set (q := fold_left iso_step post (iso_step p d)) in *.
      set (q' := fold_left iso_step post (iso_step p d')) in *.
      clearbody q q'. clear -E H1 H2.
      rewrite (Z.mod_eq (11 - q') 10), (Z.mod_eq (11 - q) 10) in E by lia.
      assert ((11 - q') / 10 = 0 \/ (11 - q') / 10 = 1).
      { assert (0 <= (11 - q') / 10 <= 1); [| lia].
        split; [apply Z.div_pos; lia | apply Z.div_le_upper_bound; lia]. }
      assert ((11 - q) / 10 = 0 \/ (11 - q) / 10 = 1).
      { assert (0 <= (11 - q) / 10 <= 1); [| lia].
        split; [apply Z.div_pos; lia | apply Z.div_le_upper_bound; lia]. }
      pose proof (Z.mul_div_le (11 - q) 10 ltac:(lia)).
      pose proof (Z.mul_div_le (11 - q') 10 ltac:(lia)).
      pose proof (Z.mul_succ_div_gt (11 - q) 10 ltac:(lia)).
      pose proof (Z.mul_succ_div_gt (11 - q') 10 ltac:(lia)).
      lia. }
    apply iso_fold_inj in Hq; auto using iso_step_range.
    apply Hne. symmetry. eapply iso_step_inj_digit; eauto.
Qed.

(** *** [normalize_token] *)

Lemma chars_upper (s : string) : chars (upper s) = map upper_char (chars s).
Proof. unfold chars. induction s as [| c s IH]; cbn; [reflexivity | f_equal; exact IH]. Qed.

Lemma upper_char_idem (c : ascii) : upper_char (upper_char c) = upper_char c.
Proof. destruct c as [[] [] [] [] [] [] [] []]; reflexivity. Qed.

Lemma upper_char_separator (c : ascii) :
  is_separator (upper_char c) = is_separator c.
Proof. destruct c as [[] [] [] [] [] [] [] []]; reflexivity. Qed.

Lemma upper_char_not_lower (c : ascii) : islower (upper_char c) = false.
Proof. destruct c as [[] [] [] [] [] [] [] []]; reflexivity. Qed.

Lemma filter_filter_same {A} (f : A -> bool) (l : list A) :
  List.filter f (List.filter f l) = List.filter f l.
Proof.
  induction l as [| a l IH]; cbn; [reflexivity |].
  destruct (f a) eqn:E; cbn; rewrite ?E, IH; reflexivity.
Qed.

Lemma filter_map_commute {A} (f : A -> bool) (g : A -> A) (l : list A) :
  (forall a, f (g a) = f a) ->
  List.filter f (map g l) = map g (List.filter f l).
Proof.
  intros H. induction l as [| a l IH]; cbn; [reflexivity |].
  rewrite H. destruct (f a); cbn; rewrite IH; reflexivity.
Qed.

Lemma normalize_token_chars (value : string) :
  chars (normalize_token value)
  = map upper_char (List.filter (fun c => negb (is_separator c)) (chars value)).
Proof. unfold normalize_token. rewrite chars_upper, chars_string_of_list. reflexivity. Qed.

Lemma chars_inj (s t : string) : chars s = chars t -> s = t.
Proof. intros H. rewrite <- (string_of_chars s), <- (string_of_chars t), H. reflexivity. Qed.

(** X5: [normalize_token] with the default pattern leaves no separator and
    no small letter in the token, and normalizing a second time
    changes nothing. *)
Theorem normalize_token_idempotent (value : string) :
  normalize_token (normalize_token value) = normalize_token value
  /\ forallb (fun c => negb (is_separator c) && negb (islower c))
       (chars (normalize_token value)) = true.
Proof.
  split.
  - apply chars_inj. rewrite !normalize_token_chars.
    rewrite filter_map_commute
      by (intros a; rewrite upper_char_separator; reflexivity).
    rewrite filter_filter_same, map_map.
    apply map_ext. intros a. apply upper_char_idem.
  - rewrite normalize_token_chars.
    apply forallb_forall. intros c Hc.
    apply in_map_iff in Hc as (a & <- & Ha).
    apply filter_In in Ha as [_ Ha].
    rewrite upper_char_separator, Ha, upper_char_not_lower. reflexivity.
Qed.

End CheckDigits.

Lemma mrz_detects_digit_substitution_witness :
  Utils.mrz_check_digit "L898902C3" <> Utils.mrz_check_digit "L898902C4".
Proof.
  apply (mrz_detects_digit_substitution (chars "L898902C") [] "3" "4");
    first [reflexivity | discriminate].
Defined.

Lemma iso_7064_unique_check_digit_witness :
  exists check,
    isdigit check = true
    /\ Utils.iso_7064_mod_11_10
         (string_of_list_ascii (chars "1234567890" ++ [check])) = true
    /\ forall c, isdigit c = true ->
                 Utils.iso_7064_mod_11_10
                   (string_of_list_ascii (chars "1234567890" ++ [c])) = true ->
                 c = check.
Proof. apply (iso_7064_unique_check_digit (chars "1234567890")); reflexivity. Defined.

Lemma iso_7064_detects_digit_substitution_witness :
  Utils.iso_7064_mod_11_10 "12345678903" = true
  /\ Utils.iso_7064_mod_11_10 "12345078903" = false.
Proof.
  split; [reflexivity |].
  apply (iso_7064_detects_digit_substitution (chars "12345") (chars "78903") "6" "0");
    first [reflexivity | discriminate].
Defined.


(** ** The claim numbers of [claim_number_analyser.py] *)

Section ClaimNumbers.
Import VaClaimNumberRecognizer.

Lemma only_digits_idem (s : string) : only_digits (only_digits s) = only_digits s.
Proof.
  unfold only_digits. rewrite chars_string_of_list, filter_filter_same. reflexivity.
Qed.

(** X6: [invalidate_result] looks at the digits only, so that the
    separators of a claim number play no part; it keeps a text exactly
    when the text holds nine digits that are not all the same and are
    neither 123456789 nor 987654321. *)
Theorem va_claim_number_kept (pattern_text : string) :
  invalidate_result pattern_text = invalidate_result (only_digits pattern_text)
  /\ (invalidate_result pattern_text = false
      <-> len (only_digits pattern_text) = 9
          /\ all_same (only_digits pattern_text) = false
          /\ only_digits pattern_text <> "123456789"
          /\ only_digits pattern_text <> "987654321").
Proof.
  split.
  - unfold invalidate_result. rewrite only_digits_idem. reflexivity.
  - unfold invalidate_result.
    destruct (len (only_digits pattern_text) =? 9) eqn:Hl; cbn [negb].
    2:{ apply Z.eqb_neq in Hl. split; [discriminate | tauto]. }
    apply Z.eqb_eq in Hl.
    destruct (all_same (only_digits pattern_text)) eqn:Hs.
    { split; [discriminate |]. intros (_ & H & _). discriminate. }
    unfold in_list. cbn [existsb].
    destruct (String.eqb_spec (only_digits pattern_text) "123456789") as [E1 | E1].
    { split; [discriminate |]. intros (_ & _ & H & _). contradiction. }
    destruct (String.eqb_spec (only_digits pattern_text) "987654321") as [E2 | E2].
    { split; [discriminate |]. intros (_ & _ & _ & H). contradiction. }
    destruct (String.eqb_spec (only_digits pattern_text) "000000000") as [E3 | E3].
    { rewrite E3 in Hs. discriminate. }
    cbn. tauto.
Qed.

End ClaimNumbers.

(** ** More on the validator dispatcher *)

Section DispatchMore.
Import Validation Spec Notions.
Variable imp : importer.



Lemma rpartition_dot_no_dot (s : string) :
  contains_char "." s = false -> rpartition_dot s = None.
Proof.
  unfold contains_char, chars. induction s as [| c s IH]; [reflexivity |].
  cbn [list_ascii_of_string existsb rpartition_dot].
  intros H. apply orb_false_iff in H as [Hc Hs].
  rewrite (IH Hs). rewrite Ascii.eqb_sym in Hc. rewrite Hc. reflexivity.
Qed.

Lemma rpartition_dot_last (module_path attr : string) :
  contains_char "." attr = false ->
  rpartition_dot (module_path +:+ "." +:+ attr) = Some (module_path, attr).
Proof.
  intros Hattr. induction module_path as [| c m IH].
  - change ("" +:+ "." +:+ attr) with (String "." attr). cbn.
    rewrite (rpartition_dot_no_dot attr Hattr). reflexivity.
  - change (String c m +:+ "." +:+ attr) with (String c (m +:+ "." +:+ attr)).
    cbn [rpartition_dot]. rewrite IH. reflexivity.
Qed.

(** X8: A dotted path is split at its last point, and the country is not
    looked at: the validator is the attribute behind the last point of
    the module in front of it, and when the module cannot be imported,
    or has no such attribute, or the attribute cannot be called, the
    value is invalid and no call is made. *)
Theorem validate_dotted_path (module_path attr value text country : string)
    (rules : option (gmap string string)) :
  module_path <> "" -> attr <> "" -> contains_char "." attr = false ->
  validate imp (module_path +:+ "." +:+ attr) value text country rules
  = match import_module imp module_path with
    | Raise _ => ([], false)
    | Return m =>
        match getattr m attr with
        | None => ([], false)
        | Some func =>
            if callable func
            then ((_call_flex func value text country (default ∅ rules)).1,
                  try_except_Exception
                    (_call_flex func value text country (default ∅ rules)).2 false)
            else ([], false)
        end
    end.
Proof.
  intros Hm Ha Hattr. unfold validate, resolve.
  assert (Hdot : contains_char "." (module_path +:+ "." +:+ attr) = true).
  { unfold contains_char. rewrite !chars_append. rewrite !existsb_app. cbn.
    apply orb_true_r. }
  rewrite Hdot. unfold _import_object. rewrite (rpartition_dot_last _ _ Hattr).
  destruct (String.eqb_spec module_path "") as [E | _]; [contradiction |].
  destruct (String.eqb_spec attr "") as [E | _]; [contradiction |].
  cbn [orb].
  destruct (import_module imp module_path) as [m | e]; cbn; [| reflexivity].
  destruct (getattr m attr) as [func |]; [| reflexivity].
  destruct (callable func); reflexivity.
Qed.

(** *** The country code *)

Lemma isspace_lower_char (c : ascii) : isspace (lower_char c) = isspace c.
Proof. destruct c as [[] [] [] [] [] [] [] []]; reflexivity. Qed.

Lemma lower_char_idem (c : ascii) : lower_char (lower_char c) = lower_char c.
Proof. destruct c as [[] [] [] [] [] [] [] []]; reflexivity. Qed.

Lemma lower_idem (s : string) : lower (lower s) = lower s.
Proof.
  induction s as [| c s IH]; cbn; [reflexivity |].
  rewrite lower_char_idem, IH. reflexivity.
Qed.

Lemma lstrip_lower (s : string) : lstrip (lower s) = lower (lstrip s).
Proof.
  induction s as [| c s IH]; cbn; [reflexivity |].
  rewrite isspace_lower_char. destruct (isspace c); [exact IH | reflexivity].
Qed.

Lemma rstrip_lower (s : string) : rstrip (lower s) = lower (rstrip s).
Proof.
  induction s as [| c s IH]; cbn; [reflexivity |].
  rewrite IH, isspace_lower_char.
  destruct (rstrip s); cbn; [destruct (isspace c) |]; reflexivity.
Qed.

Lemma rstrip_idem (s : string) : rstrip (rstrip s) = rstrip s.
Proof.
  induction s as [| c s IH]; cbn; [reflexivity |].
  destruct (rstrip s) as [| c' r] eqn:E.
  - destruct (isspace c) eqn:Ec; cbn; [reflexivity |]. rewrite Ec. reflexivity.
  - cbn [rstrip]. cbn [rstrip] in IH. rewrite IH. reflexivity.
Qed.

Lemma lstrip_starts_clean (s : string) : starts_clean (lstrip s).
Proof.
  induction s as [| c s IH]; cbn; [exact I |].
  destruct (isspace c) eqn:E; [exact IH | exact E].
Qed.

Lemma rstrip_starts_clean (s : string) : starts_clean s -> starts_clean (rstrip s).
Proof.
  destruct s as [| c s]; cbn; [auto |]. intros Hc.
  destruct (rstrip s); [rewrite Hc |]; exact Hc.
Qed.

Lemma lstrip_clean (s : string) : starts_clean s -> lstrip s = s.
Proof. destruct s as [| c s]; cbn; [reflexivity |]. intros ->. reflexivity. Qed.

Lemma strip_idem (s : string) : strip (strip s) = strip s.
Proof.
  unfold strip.
  rewrite (lstrip_clean (rstrip (lstrip s)))
    by apply rstrip_starts_clean, lstrip_starts_clean.
  apply rstrip_idem.
Qed.

Lemma strip_lower (s : string) : strip (lower s) = lower (strip s).
Proof. unfold strip. rewrite lstrip_lower, rstrip_lower. reflexivity. Qed.

(** X9: The analyzer module of a country is found whatever the case of the
    country code and the white space around it; a blank country code
    has no module. *)
Theorem resolve_in_country_normalizes (country fn : string) :
  _resolve_in_country imp country fn
  = _resolve_in_country imp (lower (strip country)) fn
  /\ (strip country = "" -> _resolve_in_country imp country fn = None).
Proof.
  split.
  - unfold _resolve_in_country.
    rewrite strip_lower, strip_idem, lower_idem. reflexivity.
  - intros H. unfold _resolve_in_country. rewrite H. reflexivity.
Qed.

End DispatchMore.


Lemma validate_dotted_path_witness :
  Validation.validate Examples.one_module ("validators" +:+ "." +:+ "check")
    "12" "id 12" "US" None
  = ([[Validation.AStr "12"; Validation.AStr "id 12"; Validation.AStr "US";
       Validation.ADict ∅];
      [Validation.AStr "12"; Validation.AStr "id 12"; Validation.AStr "US"]], true).
Proof.
  rewrite (validate_dotted_path Examples.one_module "validators" "check")
    by first [discriminate | reflexivity].
  reflexivity.
Defined.


(** ** The bank account validator of the US analyzer *)

Section BankAccount.
Import ResultValidation Spec USAnalyzer.

Lemma has_consecutive_default (step_ok : Z -> Z -> bool) (s : string) :
  has_consecutive step_ok s default_min_consecutive = true
  <-> all_digits s /\ contains_run step_ok 5 s.
Proof. apply has_consecutive_spec. reflexivity. Qed.

(** X10: [validate_bank_account_number] accepts a value exactly when it has
    at most 15 characters, no letter and at least 6 digits, and is not
    a string of digits with a run of 5 increasing, decreasing or equal
    digits; the bound of 17 digits never decides. *)
Theorem validate_bank_account_number_accepts (value text : string) :
  validate_bank_account_number value text = true
  <-> len value <= 15
      /\ is_valid_numeric_field value = false
      /\ 6 <= count_digits value
      /\ ~ (all_digits value
            /\ (contains_run increasing_step 5 value
                \/ contains_run decreasing_step 5 value
                \/ contains_run repeating_step 5 value)).
Proof.
  unfold validate_bank_account_number.
  rewrite strip_non_digits_count.
  unfold has_consecutive_increasing_numbers, has_consecutive_decreasing_numbers,
    has_consecutive_repetitive_numbers.
  pose proof (has_consecutive_default increasing_step value) as Hi.
  pose proof (has_consecutive_default decreasing_step value) as Hd.
  pose proof (has_consecutive_default repeating_step value) as Hr.
  assert (Hcount : count_digits value <= len value).
  { unfold count_digits, len. rewrite <- chars_length.
    pose proof (List.filter_length_le isdigit (chars value)). lia. }
  destruct (has_consecutive increasing_step value default_min_consecutive);
    destruct (has_consecutive decreasing_step value default_min_consecutive);
    destruct (has_consecutive repeating_step value default_min_consecutive);
    rewrite !andb_true_iff, !negb_true_iff, !Z.leb_le;
    intuition (try discriminate; try lia).
Qed.

End BankAccount.

(** ** Labels and validators *)

Section Labels.
Import ResultValidation Spec USAnalyzer.

Lemma eqb_by_lower (label x : string) :
  lower label <> lower x -> String.eqb label x = false.
Proof. intros H. apply String.eqb_neq. intros ->. apply H. reflexivity. Qed.

(** X11: Of the numeric labels, the four that [is_valid_length_for_entity]
    does not name are checked for letters and for runs only: the
    number of digits is not looked at, and neither is the validator
    of the library. *)
Theorem numeric_labels_without_length_rule (ext : external) (label value text : string) :
  in_list (lower label)
    ["us_bank_number"; "us_bank_account_number"; "credit_card"; "us_ssn"] = true ->
  validate_extracted_data ext label value text
  = negb (is_valid_numeric_field value || any_consecutive value).
Proof.
  intros H. unfold in_list in H. cbn [existsb] in H.
  rewrite !orb_true_iff in H.
  destruct H as [H | [H | [H | [H | H]]]]; [| | | | discriminate];
    apply String.eqb_eq in H;
    unfold validate_extracted_data, is_valid_length_for_entity, in_list;
    cbn [existsb];
    repeat (rewrite eqb_by_lower by (rewrite H; vm_compute; discriminate));
    rewrite !H;
    cbn [orb andb negb];
    unfold numeric_labels, document_labels, sequence_checked_labels;
    cbn [existsb String.eqb Ascii.eqb Bool.eqb orb andb negb];
    unfold any_consecutive;
    destruct (is_valid_numeric_field value); cbn [orb andb negb]; try reflexivity;
    destruct (has_consecutive_increasing_numbers value default_min_consecutive);
    cbn [orb andb negb]; try reflexivity;
    destruct (has_consecutive_decreasing_numbers value default_min_consecutive);
    cbn [orb andb negb]; try reflexivity;
    destruct (has_consecutive_repetitive_numbers value default_min_consecutive);
    reflexivity.
Qed.


(** X12: [validate_phone_number] counts the characters of the value, not
    its digits: it accepts exactly the values of 7 to 30 characters
    that are not a string of digits with a run of 5, so that every
    value of that length with a character that is no digit passes. *)
Theorem validate_phone_number_accepts (value text : string) :
  (validate_phone_number value text = true
   <-> 7 <= len value <= 30
       /\ ~ (all_digits value
             /\ (contains_run increasing_step 5 value
                 \/ contains_run decreasing_step 5 value
                 \/ contains_run repeating_step 5 value)))
  /\ (7 <= len value <= 30 -> forallb isdigit (chars value) = false ->
      validate_phone_number value text = true).
Proof.
  unfold validate_phone_number.
  unfold has_consecutive_increasing_numbers, has_consecutive_decreasing_numbers,
    has_consecutive_repetitive_numbers.
  pose proof (has_consecutive_default increasing_step value) as Hi.
  pose proof (has_consecutive_default decreasing_step value) as Hd.
  pose proof (has_consecutive_default repeating_step value) as Hr.
  unfold all_digits in *.
  destruct (has_consecutive increasing_step value default_min_consecutive);
    destruct (has_consecutive decreasing_step value default_min_consecutive);
    destruct (has_consecutive repeating_step value default_min_consecutive);
    rewrite !andb_true_iff, !Z.leb_le;
    cbn [negb];
    intuition (try discriminate; try lia; try congruence).
Qed.

End Labels.

Lemma numeric_labels_without_length_rule_witness :
  ResultValidation.validate_extracted_data Examples.plain_external
    "US_SSN" "1" "SSN 1" = true.
Proof.
  rewrite (numeric_labels_without_length_rule Examples.plain_external "US_SSN" "1" "SSN 1")
    by reflexivity.
  reflexivity.
Defined.

(** ** The spans of the values that the model returns *)

Section Spans.
Import BaseCountryAnalyzer Notions.

Lemma overlaps_sym (a b : Z * Z) : overlaps a b = overlaps b a.
Proof. unfold overlaps. rewrite orb_comm. reflexivity. Qed.

Lemma substring_whole (s : string) :
  forall i n,
    String.length (substring i n s) = n -> n = 0%nat \/ (i + n <= String.length s)%nat.
Proof.
  induction s as [| c s IH]; intros i n H.
  - destruct i, n; cbn in H; auto; discriminate.
  - destruct i as [| i].
    + destruct n as [| n]; [auto |]. cbn in H. injection H as H.
      destruct (IH 0%nat n H); cbn; right; lia.
    + cbn in H. destruct (IH i n H); [auto |]. cbn. right. lia.
Qed.

Lemma strip_not_empty (val : string) :
  String.eqb (Validation.strip val) "" = false -> (1 <= String.length val)%nat.
Proof. destruct val; [discriminate | cbn; lia]. Qed.

(** What [text.find(val)] returns for a value that is found. *)
Lemma find_located (text val : string) :
  String.eqb (Validation.strip val) "" = false ->
  0 <= find text val ->
  find text val < find text val + len val
  /\ find text val + len val <= len text
  /\ slice text (find text val) (find text val + len val) = val.
Proof.
  intros Hval Hfound. unfold find in *.
  destruct (String.index 0 val text) as [i |] eqn:Hi; [| lia].
  pose proof (strip_not_empty val Hval) as Hlen.
  pose proof (index_correct1 _ _ _ _ Hi) as Hsub.
  destruct (substring_whole text i (String.length val)) as [H0 | Hle];
    [rewrite Hsub; reflexivity | lia |].
  unfold len. split; [lia |]. split; [lia |].
  unfold slice, clamp, len.
  replace (Z.of_nat i <? 0) with false by (symmetry; apply Z.ltb_ge; lia).
  replace (Z.of_nat i + Z.of_nat (String.length val) <? 0) with false
    by (symmetry; apply Z.ltb_ge; lia).
  rewrite !Z.min_l by lia.
  replace (Z.of_nat i <? Z.of_nat i + Z.of_nat (String.length val)) with true
    by (symmetry; apply Z.ltb_lt; lia).
  rewrite Nat2Z.id.
  replace (Z.to_nat (Z.of_nat i + Z.of_nat (String.length val) - Z.of_nat i))
    with (String.length val) by lia.
  exact Hsub.
Qed.

Lemma span_step_ok (text eid : string) (Q : string -> Prop) st (val : string) :
  Q val -> spans_ok text Q st -> spans_ok text Q (span_step text eid st val).
Proof.
  intros HQ Hst. destruct st as [results used].
  destruct Hst as (Hused & Hpairs & Hloc). cbn [fst snd] in *.
  unfold span_step.
  destruct (String.eqb (Validation.strip val) "") eqn:Hval; [repeat split; assumption |].
  destruct (find text val <? 0) eqn:Hfound; [repeat split; assumption |].
  apply Z.ltb_ge in Hfound.
  destruct (existsb _ used) eqn:Hov; [repeat split; assumption |].
  destruct (find_located text val Hval Hfound) as (H1 & H2 & H3).
  repeat split; cbn [fst snd].
  - rewrite map_app, Hused. reflexivity.
  - apply ForallOrdPairs_snoc; [exact Hpairs |].
    apply Forall_forall. intros r Hr. unfold apart. cbn.
    rewrite overlaps_sym.
    apply not_true_iff_false. intros Ho.
    apply not_true_iff_false in Hov. apply Hov.
    apply existsb_exists. exists (span_of r). split; [| exact Ho].
    subst used. apply in_map. apply list_elem_of_In, Hr.
  - apply Forall_app. split; [exact Hloc |].
    constructor; [| constructor]. unfold located. cbn.
    rewrite H3. auto.
Qed.

Lemma span_steps_ok (text eid : string) (Q : string -> Prop) (values : list string) :
  forall st,
    Forall Q values -> spans_ok text Q st ->
    spans_ok text Q (fold_left (span_step text eid) values st).
Proof.
  induction values as [| val values IH]; intros st HQ Hst; cbn; [exact Hst |].
  apply Forall_cons in HQ as [Hv HQ].
  apply IH; [exact HQ |]. apply span_step_ok; assumption.
Qed.

(** X13: [map_values_to_spans] returns spans of which no two overlap; each
    lies in the text, is not empty, and covers there one of the values
    of the model. *)
Theorem map_values_to_spans_apart (det_raw : list (string * list string))
    (text : string) (c : CountryConfig) :
  ForallOrdPairs apart (map_values_to_spans det_raw text c)
  /\ Forall (located text (fun v => v ∈ concat (map snd det_raw)))
       (map_values_to_spans det_raw text c).
Proof.
  unfold map_values_to_spans.
  set (Q := fun v : string => v ∈ concat (map snd det_raw)).
  set (k2e := key_to_entity c).
  enough (H : forall entries st,
             Forall (fun kv => Forall Q kv.2) entries ->
             spans_ok text Q st ->
             spans_ok text Q
               (fold_left
                  (fun st '(out_key, values) =>
                     match truthy (dict_get k2e out_key) with
                     | Some eid => fold_left (span_step text eid) values st
                     | None => st
                     end) entries st)).
  { destruct (H det_raw ([], [])) as (_ & Hp & Hl).
    - apply Forall_forall. intros [k values] Hkv. cbn.
      apply Forall_forall. intros v Hv. unfold Q.
      apply list_elem_of_In, in_concat. exists values. split.
      + apply in_map_iff. exists (k, values). split; [reflexivity |].
        apply list_elem_of_In, Hkv.
      + apply list_elem_of_In, Hv.
    - repeat split; constructor.
    - split; assumption. }
  induction entries as [| [k values] entries IH]; intros st HQ Hst; cbn; [exact Hst |].
  apply Forall_cons in HQ as [Hv HQ]. cbn in Hv.
  apply IH; [exact HQ |].
  destruct (truthy (dict_get k2e k)); [| exact Hst].
  apply span_steps_ok; assumption.
Qed.

(** ** The post-filter of an analyzer *)

Lemma keep_some (self : analyzer) (text : string) (r r' : RecognizerResult) :
  keep self text r = Return (Some r') -> r' = r /\ passes self r.
Proof.
  unfold keep, passes.
  destruct (dict_get (entities (cfg self)) (entity_type r)) as [ent |]; [| discriminate].
  destruct (enabled ent) eqn:He; cbn [negb]; [| discriminate].
  fold (threshold ent).
  destruct (bool_decide (score r < threshold ent)%Qc) eqn:Hs; [discriminate |].
  apply bool_decide_eq_false in Hs. apply Qcnot_lt_le in Hs.
  intros H.
  assert (r' = r) as ->.
  { destruct (truthy _) as [f |]; [| congruence].
    cbn in H.
    destruct (match instance_method (collab self) f with
              | Some m => _ | None => _ end) as [ok | e]; [| discriminate].
    cbn in H. destruct ok; congruence. }
  split; [reflexivity |]. exists ent. auto.
Qed.

(** X14: [post_filter] only removes: what it returns is a sublist of the
    results it was given, in their order, and every result it keeps
    belongs to an enabled entity of the configuration and reaches the
    threshold of that entity. *)
Theorem post_filter_keeps_sublist (self : analyzer) (text : string)
    (results filtered : list RecognizerResult) :
  post_filter self text results = Return filtered ->
  filtered `sublist_of` results /\ Forall (passes self) filtered.
Proof.
  revert filtered. induction results as [| r results IH]; intros filtered H.
  - cbn in H. injection H as <-. split; constructor.
  - cbn [post_filter] in H.
    destruct (keep self text r) as [k | e] eqn:Hk; [| discriminate].
    cbn in H.
    destruct (post_filter self text results) as [rest | e]; [| discriminate].
    cbn in H. injection H as <-.
    destruct (IH rest eq_refl) as [Hsub Hall].
    destruct k as [r' |].
    + apply keep_some in Hk as [-> Hp].
      split; [apply sublist_skip, Hsub | constructor; assumption].
    + split; [apply sublist_cons, Hsub | exact Hall].
Qed.

End Spans.

Lemma post_filter_keeps_sublist_witness :
  [Examples.candidate "claim-number" 6 20; Examples.candidate "employee-id" 30 41]
    `sublist_of` MoreExamples.mixed_results
  /\ Forall (Notions.passes MoreExamples.us_recognizer)
       [Examples.candidate "claim-number" 6 20; Examples.candidate "employee-id" 30 41].
Proof.
  apply (post_filter_keeps_sublist MoreExamples.us_recognizer Examples.demo_text).
  reflexivity.
Defined.

(** ** More on the conflict resolution *)

Section WalkMore.
Import EntityClassifier Spec Notions.

(** *** The sort *)

Lemma insert_by_start_perm x l : insert_by_start x l ≡ₚ x :: l.
Proof.
  induction l as [| y l IH]; cbn; [reflexivity |].
  destruct (start x <=? start y); [reflexivity |].
  rewrite IH. apply Permutation_swap.
Qed.

Lemma sorted_by_start_perm l : sorted_by_start l ≡ₚ l.
Proof.
  induction l as [| x l IH]; cbn; [reflexivity |].
  rewrite insert_by_start_perm, IH. reflexivity.
Qed.

Lemma insert_by_start_stable (k : Z) x l :
  List.filter (starts_at k) (insert_by_start x l)
  = List.filter (starts_at k) (x :: l).
Proof.
  induction l as [| y l IH]; [reflexivity |].
  cbn [insert_by_start].
  destruct (Z.leb_spec (start x) (start y)) as [Hle | Hgt]; [reflexivity |].
  cbn [List.filter] in *. rewrite IH. unfold starts_at.
  destruct (Z.eqb_spec (start x) k), (Z.eqb_spec (start y) k); try reflexivity. lia.
Qed.

(** X15: [_sort_analyzed_data], and the sort in front of the conflict
    resolution, return the results they were given, ordered by their
    start, and leave results with the same start in the order they
    came in. *)
Theorem sorted_by_start_stable (l : list RecognizerResult) :
  sorted_by_start l ≡ₚ l
  /\ start_sorted (sorted_by_start l)
  /\ forall k, List.filter (starts_at k) (sorted_by_start l) = List.filter (starts_at k) l.
Proof.
  split; [apply sorted_by_start_perm |].
  split; [apply sorted_by_start_sorted |].
  intros k. induction l as [| x l IH]; [reflexivity |].
  cbn [sorted_by_start foldr]. fold (sorted_by_start l).
  rewrite insert_by_start_stable. cbn [List.filter]. rewrite IH. reflexivity.
Qed.

(** *** No candidate is lost *)

Lemma flush_held (w : walk) :
  non_overlapping_results (flush w) ++ concat (overlapping_results (flush w)) ≡ₚ held w.
Proof.
  unfold flush, held.
  destruct (current_overlap_group w) as [| a [| b t]]; cbn.
  - rewrite app_nil_r. reflexivity.
  - rewrite <- app_assoc. apply Permutation_app_head, Permutation_app_comm.
  - rewrite concat_app. cbn. rewrite app_nil_r. reflexivity.
Qed.

Lemma resolve_held (w : walk) (e : RecognizerResult) :
  held (resolve w e) ≡ₚ e :: held w.
Proof.
  unfold resolve.
  destruct (last (current_overlap_group w)) as [l |] eqn:Hl.
  - destruct (entities_overlap l e).
    + destruct (String.eqb _ _); unfold held; cbn.
      * rewrite <- app_assoc. cbn. symmetry. apply Permutation_middle.
      * rewrite !app_assoc. rewrite <- Permutation_cons_append. reflexivity.
    + unfold held at 1. cbn [non_overlapping_results overlapping_results
                              current_overlap_group].
      rewrite app_assoc, flush_held.
      rewrite <- Permutation_cons_append. reflexivity.
  - apply last_None in Hl. unfold held. cbn. rewrite Hl.
    rewrite app_nil_r, app_assoc, <- Permutation_cons_append. reflexivity.
Qed.

Lemma walk_held (stream : list RecognizerResult) :
  forall w, held (fold_left resolve stream w) ≡ₚ held w ++ stream.
Proof.
  induction stream as [| e stream IH]; intros w; cbn.
  - rewrite app_nil_r. reflexivity.
  - rewrite IH, resolve_held. cbn. apply Permutation_middle.
Qed.

Lemma partition_held (stream : list RecognizerResult) :
  non_overlapping_results (partition stream)
  ++ concat (overlapping_results (partition stream)) ≡ₚ stream.
Proof.
  unfold partition. rewrite flush_held, walk_held. reflexivity.
Qed.

(** X16: The conflict resolution loses no candidate and makes none up:
    the results it accepts and the members of its overlap groups are,
    together, the candidates of the stream. *)
Theorem partition_keeps_candidates (stream : list RecognizerResult) :
  non_overlapping_results (partition stream)
  ++ concat (overlapping_results (partition stream)) ≡ₚ stream.
Proof. apply partition_held. Qed.

(** *** The overlap groups *)

Lemma linked_snoc (l : list RecognizerResult) (e : RecognizerResult) :
  linked l ->
  (forall x, last l = Some x -> entities_overlap x e = true /\ entity_type x <> entity_type e) ->
  linked (l ++ [e]).
Proof.
  induction l as [| a [| b t] IH]; intros Hl Hlast.
  - exact I.
  - cbn. destruct (Hlast a eq_refl). auto.
  - destruct Hl as (H1 & H2 & H3).
    change ((a :: b :: t) ++ [e]) with (a :: (b :: t) ++ [e]).
    cbn [linked app]. repeat split; auto.
    apply IH; auto.
Qed.

Lemma flush_well_grouped (w : walk) :
  well_grouped w ->
  Forall (fun g => (2 <= length g)%nat /\ linked g) (overlapping_results (flush w)).
Proof.
  intros [Hc Hg]. unfold flush.
  destruct (current_overlap_group w) as [| a [| b t]] eqn:Hcur; cbn; try exact Hg.
  apply Forall_app. split; [exact Hg |].
  constructor; [| constructor]. split; [cbn; lia | exact Hc].
Qed.

Lemma resolve_well_grouped (w : walk) (e : RecognizerResult) :
  well_grouped w -> well_grouped (resolve w e).
Proof.
  intros Hw. pose proof Hw as [Hc Hg]. unfold resolve.
  destruct (last (current_overlap_group w)) as [l |] eqn:Hl.
  - destruct (entities_overlap l e) eqn:Ho.
    + destruct (String.eqb_spec (entity_type l) (entity_type e)) as [Heq | Hne].
      * split; assumption.
      * split; cbn; [| exact Hg].
        apply linked_snoc; [exact Hc |].
        intros x Hx. rewrite Hl in Hx. injection Hx as <-. auto.
    + split; cbn; [exact I |]. apply flush_well_grouped, Hw.
  - split; cbn; [exact I | exact Hg].
Qed.

(** X17: Every overlap group that goes to the arbitration has at least two
    members, and each member overlaps the one before it and has
    another entity type than that one. *)
Theorem overlap_groups_linked (stream : list RecognizerResult) :
  Forall (fun g => (2 <= length g)%nat /\ linked g)
    (overlapping_results (partition stream)).
Proof.
  unfold partition. apply flush_well_grouped.
  assert (H : forall w, well_grouped w -> well_grouped (fold_left resolve stream w)).
  { induction stream as [| e stream IH]; intros w Hw; cbn; [exact Hw |].
    apply IH, resolve_well_grouped, Hw. }
  apply H. split; constructor.
Qed.

(** *** Where the returned results come from *)

Lemma accepted_cleared (self : classifier) (text : string) (r : RecognizerResult) :
  accepted self text r = true <-> cleared self text r.
Proof.
  unfold accepted, cleared.
  destruct (ResultValidation.is_not_part_of_decimal _ _ _ _);
    [| split; [discriminate | intros [H _]; discriminate]].
  destruct (_group_conf self !! entity_type r) as [[min_conf group] |] eqn:Hg; cbn.
  - destruct (String.eqb_spec group "unknown") as [-> | Hne].
    + split; [discriminate |].
      intros (_ & m & g & [= <- <-] & Hg' & _). contradiction.
    + rewrite !andb_true_iff, negb_true_iff, bool_decide_eq_false, bool_decide_eq_true.
      split.
      * intros (((H1 & H2) & H3) & H4). split; [reflexivity |].
        exists min_conf, group. auto 10.
      * intros (_ & m & g & [= <- <-] & _ & H1 & H2 & H3 & H4). auto.
  - split; [discriminate |]. intros (_ & m & g & Hmg & _). discriminate.
Qed.

(** X18: Every result that [analyze_response] returns is a verdict of the
    arbitration or a candidate of the analyzer that passed every
    filter: the decimal filter, a group in the index, a score that is
    not zero and reaches the minimum of its entity, and both
    validators.  No result is returned twice. *)
Theorem analyze_response_results_cleared (self : classifier) (text : string)
    (cands res : list RecognizerResult) :
  analyze self text = Return cands ->
  analyze_response self text = Return res ->
  NoDup res
  /\ exists judged,
      judge_results self text
        (overlapping_results (partition (accepted_stream self text cands)))
      = Return judged
      /\ forall r, r ∈ res -> r ∈ judged \/ (r ∈ cands /\ cleared self text r).
Proof.
  intros Ha Hres. unfold analyze_response in Hres. rewrite Ha in Hres. cbn in Hres.
  rewrite loop_is_filter in Hres.
  change (flush (fold_left resolve _ walk_start))
    with (partition (accepted_stream self text cands)) in Hres.
  destruct (judge_results self text _) as [judged | e]; [| discriminate].
  cbn in Hres. injection Hres as <-.
  split; [apply NoDup_remove_dups |].
  exists judged. split; [reflexivity |].
  intros r Hr. apply elem_of_remove_dups, elem_of_app in Hr as [Hr | Hr]; [| auto].
  right.
  assert (Hin : r ∈ accepted_stream self text cands).
  { rewrite <- (partition_held (accepted_stream self text cands)).
    apply elem_of_app. left. exact Hr. }
  unfold accepted_stream in Hin.
  apply list_elem_of_In, filter_In in Hin as [Hin Hacc].
  split.
  - apply list_elem_of_In in Hin. rewrite sorted_by_start_perm in Hin. exact Hin.
  - apply accepted_cleared, Hacc.
Qed.

End WalkMore.

Lemma analyze_response_results_cleared_witness :
  exists res,
    EntityClassifier.analyze_response
      (Examples.demo Examples.grouped_candidates
         [Examples.candidate "claim-number" 6 20] [])
      Examples.demo_text = Return res
    /\ NoDup res
    /\ exists judged,
        Return [Examples.candidate "claim-number" 6 20] = Return judged
        /\ forall r,
            r ∈ res ->
            r ∈ judged
            \/ (r ∈ Examples.grouped_candidates
                /\ Notions.cleared
                     (Examples.demo Examples.grouped_candidates
                        [Examples.candidate "claim-number" 6 20] [])
                     Examples.demo_text r).
Proof.
  eexists. split; [vm_compute; reflexivity |].
  apply (analyze_response_results_cleared
           (Examples.demo Examples.grouped_candidates
              [Examples.candidate "claim-number" 6 20] [])
           Examples.demo_text Examples.grouped_candidates);
    reflexivity.
Defined.

(** ** The response of the classifier *)

Section Responses.
Import EntityClassifier Spec Notions.
Variable self : classifier.

Lemma response_loop_plain (text : string) (values : list RecognizerResult) :
  forall response location_count index,
    response_loop self [] text (response, location_count) index values
    = (response ++ map (entry_of self text) (List.filter (has_group self) values),
       location_count).
Proof.
  induction values as [| value values IH]; intros response location_count index.
  - cbn. rewrite app_nil_r. reflexivity.
  - cbn [response_loop List.filter]. unfold response_step at 1. unfold has_group at 1.
    destruct (default (Q2Qc 0, "unknown") (_group_conf self !! entity_type value))
      as [m g] eqn:Hg.
    cbn [snd]. destruct (String.eqb g "unknown"); cbn [negb].
    + apply IH.
    + rewrite IH. cbn [map]. rewrite <- app_assoc. reflexivity.
Qed.

(** X19: Without anonymized items, absent or empty, the response has one
    entry for each result of a known group, in the order of the start
    offsets: the display name of the entity or else its id, the
    location of the result itself, and the slice of the text. *)
Theorem response_without_anonymized_items (data : list RecognizerResult)
    (anonymized_response : option (list anonymized_item)) (text : string) :
  anonymized_response = None \/ anonymized_response = Some [] ->
  get_analyzed_entities_response self data anonymized_response text
  = map (entry_of self text) (List.filter (has_group self) (sorted_by_start data)).
Proof.
  intros [-> | ->]; unfold get_analyzed_entities_response, _sort_analyzed_data;
    rewrite response_loop_plain; reflexivity.
Qed.

End Responses.

Lemma response_without_anonymized_items_witness :
  EntityClassifier.get_analyzed_entities_response
    (Examples.demo Examples.demo_candidates [] []) Examples.demo_candidates None
    Examples.demo_text
  = map (Notions.entry_of (Examples.demo Examples.demo_candidates [] [])
           Examples.demo_text)
      (List.filter (Spec.has_group (Examples.demo Examples.demo_candidates [] []))
         (EntityClassifier.sorted_by_start Examples.demo_candidates)).
Proof. apply response_without_anonymized_items. left. reflexivity. Defined.


Section Aggregation.
Import EntityClassifier Notions.

Lemma aggregate_fold (key : string) (entries : list entity_response) :
  forall m : gmap string (list detail),
    fold_left aggregate_step entries m !! key
    = match details_for key entries with
      | [] => m !! key
      | ds => Some (default [] (m !! key) ++ ds)
      end.
Proof.
  induction entries as [| entry entries IH]; intros m; [reflexivity |].
  cbn [fold_left]. rewrite IH. unfold details_for. cbn [List.filter].
  unfold aggregate_step at 1 2.
  destruct (String.eqb_spec (r_entity_type entry) key) as [-> | Hne].
  - rewrite lookup_insert_eq. cbn [map default].
    destruct (map detail_of _) as [| d ds] eqn:Hds.
    + reflexivity.
    + unfold id. rewrite <- app_assoc. reflexivity.
  - rewrite lookup_insert_ne by exact Hne. reflexivity.
Qed.

(** X20: The aggregate has a key exactly for the names that occur in the
    response, and under a name the details of its entries in the order
    of the response. *)
Theorem aggregate_entities_lookup (entries : list entity_response) (key : string) :
  _aggregate_entities_yaml entries !! key
  = match details_for key entries with
    | [] => None
    | ds => Some ds
    end.
Proof.
  unfold _aggregate_entities_yaml.
  change (fold_left _ entries ∅) with (fold_left aggregate_step entries ∅).
  rewrite aggregate_fold, lookup_empty. reflexivity.
Qed.

End Aggregation.

(** ** The indices built by the constructor *)

Section Indices.
Import Config Construction EntityClassifier Notions.

Lemma last_snoc_filter {A : Type} (P : A -> bool) (l : list A) (a : A) :
  last (List.filter P (l ++ [a])) = if P a then Some a else last (List.filter P l).
Proof.
  rewrite List.filter_app. cbn [List.filter].
  destruct (P a); [apply last_snoc | rewrite app_nil_r; reflexivity].
Qed.

(** A loop of dictionary writes leaves under a key the value of the
    last turn that wrote it. *)
Lemma fold_insert_last {V : Type} (writes : EntityConfig -> bool)
    (val : definition -> V) (field : indices -> gmap string V) (ent_id : string) :
  (forall ix d, field (step_of ix d)
                = if writes d.2 then <[ d.1.2 := val d ]> (field ix) else field ix) ->
  forall defs ix,
    field (fold_left step_of defs ix) !! ent_id
    = match last_writer writes ent_id defs with
      | Some d => Some (val d)
      | None => field ix !! ent_id
      end.
Proof.
  intros Hstep defs. induction defs as [| d defs IH] using rev_ind; intros ix.
  - reflexivity.
  - rewrite fold_left_app. cbn [fold_left]. rewrite Hstep.
    unfold last_writer in *. rewrite last_snoc_filter.
    destruct (writes d.2) eqn:Hw.
    + destruct (String.eqb_spec d.1.2 ent_id) as [<- | Hne]; cbn [andb].
      * rewrite lookup_insert_eq. reflexivity.
      * rewrite lookup_insert_ne by exact Hne. apply IH.
    + rewrite andb_false_r. apply IH.
Qed.

Lemma index_country_flat (country : string) (cfg : CountryConfig) (ix : indices) :
  index_country ix (country, cfg)
  = fold_left step_of (map (fun item => (country, item.1, item.2)) (entities cfg)) ix.
Proof.
  unfold index_country. cbn [fst snd]. revert ix.
  induction (entities cfg) as [| [ent_id ent] l IH]; intros ix; [reflexivity |].
  cbn [fold_left map]. rewrite IH. reflexivity.
Qed.

Lemma country_step_flat (env : environment) (ix : indices) (country : string) :
  country_step env ix country
  = fold_left step_of
      (match registered env country with
       | Some cfg => map (fun item => (country, item.1, item.2)) (entities cfg)
       | None => []
       end) ix.
Proof.
  unfold country_step, registered.
  destruct (load_country_config env country) as [cfg | e]; [| reflexivity].
  cbn. destruct (add_recognizer env cfg) as [[] | e]; [| reflexivity].
  cbn. apply index_country_flat.
Qed.

Lemma custom_analyze_flat (env : environment) (countries : list string) (ix : indices) :
  custom_analyze env countries = Return ix ->
  ix = fold_left step_of (definitions env countries) no_indices.
Proof.
  unfold custom_analyze, definitions. intros H.
  destruct (load_all env _) as [cfgs | e]; [| discriminate].
  cbn in H. destruct (build_engine_from_configs env cfgs) as [[] | e]; [| discriminate].
  cbn in H. injection H as <-.
  generalize no_indices.
  induction (countries_or_default countries) as [| country l IH]; intros ix0; [reflexivity |].
  cbn [fold_left flat_map]. rewrite fold_left_app, <- country_step_flat. apply IH.
Qed.

Lemma step_group_conf (ix : indices) (d : definition) :
  group_conf (step_of ix d)
  = if enabled d.2
    then <[ d.1.2 := (min_conf_of d.2, group_name_of d.2) ]> (group_conf ix)
    else group_conf ix.
Proof.
  destruct d as [[country ent_id] ent]. unfold step_of, index_entity. cbn [fst snd].
  destruct (enabled ent); reflexivity.
Qed.

Lemma step_display_name (ix : indices) (d : definition) :
  display_name (step_of ix d)
  = if has_return_name d.2
    then <[ d.1.2 := default "" (BaseCountryAnalyzer.truthy (return_name d.2)) ]>
           (display_name ix)
    else display_name ix.
Proof.
  destruct d as [[country ent_id] ent]. unfold step_of, index_entity, has_return_name.
  cbn [fst snd]. destruct (enabled ent); [| reflexivity]. cbn [andb display_name].
  destruct (BaseCountryAnalyzer.truthy (return_name ent)) as [rn |].
  - rewrite bool_decide_eq_true_2 by (eexists; reflexivity). reflexivity.
  - rewrite bool_decide_eq_false_2 by (intros [x Hx]; discriminate). reflexivity.
Qed.

Lemma step_validator_index (ix : indices) (d : definition) :
  validator_index (step_of ix d)
  = if has_validator d.2
    then <[ d.1.2 := {| v_country := d.1.1; v_fn := default "" (vfn_of d.2);
                        v_rules := vrules_of d.2 |} ]> (validator_index ix)
    else validator_index ix.
Proof.
  destruct d as [[country ent_id] ent]. unfold step_of, index_entity, has_validator.
  cbn [fst snd]. destruct (enabled ent); [| reflexivity]. cbn [andb validator_index].
  destruct (vfn_of ent) as [vfn |].
  - rewrite bool_decide_eq_true_2 by (eexists; reflexivity). reflexivity.
  - rewrite bool_decide_eq_false_2 by (intros [x Hx]; discriminate). reflexivity.
Qed.

Lemma step_target_entities (ix : indices) (d : definition) :
  target_entities (step_of ix d)
  = if enabled d.2 && AnalyzerFactory.detects d.2
    then {[ d.1.2 ]} ∪ target_entities ix
    else target_entities ix.
Proof.
  destruct d as [[country ent_id] ent]. unfold step_of, index_entity. cbn [fst snd].
  destruct (enabled ent); reflexivity.
Qed.

Lemma fold_target_entities (ent_id : string) (defs : list definition) :
  forall ix,
    ent_id ∈ target_entities (fold_left step_of defs ix)
    <-> ent_id ∈ target_entities ix
        \/ exists d, d ∈ defs /\ d.1.2 = ent_id
                     /\ enabled d.2 = true /\ AnalyzerFactory.detects d.2 = true.
Proof.
  induction defs as [| d defs IH]; intros ix.
  - cbn. split; [auto |]. intros [H | (d & Hd & _)]; [exact H |].
    apply elem_of_nil in Hd. contradiction.
  - cbn [fold_left]. rewrite IH, step_target_entities.
    destruct (enabled d.2 && AnalyzerFactory.detects d.2) eqn:Hb.
    + apply andb_true_iff in Hb as [He Hdt].
      rewrite elem_of_union, elem_of_singleton. split.
      * intros [[-> | H] | (d' & Hd' & H)]; [| auto |].
        -- right. exists d. split; [apply list_elem_of_here | auto].
        -- right. exists d'. split; [apply list_elem_of_further, Hd' | exact H].
      * intros [H | (d' & Hd' & Hid & H)]; [auto |].
        apply elem_of_cons in Hd' as [-> | Hd']; [auto |].
        right. exists d'. auto.
    + split.
      * intros [H | (d' & Hd' & H)]; [auto |].
        right. exists d'. split; [apply list_elem_of_further, Hd' | exact H].
      * intros [H | (d' & Hd' & Hid & He & Hdt)]; [auto |].
        apply elem_of_cons in Hd' as [-> | Hd'].
        -- rewrite He, Hdt in Hb. discriminate.
        -- right. exists d'. auto.
Qed.

Lemma custom_analyze_group_conf (env : environment) (countries : list string)
    (ix : indices) (ent_id : string) :
  custom_analyze env countries = Return ix ->
  group_conf ix !! ent_id
  = (fun d => (min_conf_of d.2, group_name_of d.2))
      <$> last_writer enabled ent_id (definitions env countries).
Proof.
  intros H. apply custom_analyze_flat in H as ->.
  rewrite (fold_insert_last enabled (fun d => (min_conf_of d.2, group_name_of d.2))
             group_conf ent_id step_group_conf).
  destruct (last_writer _ _ _); reflexivity.
Qed.

(** X21: The indices of a constructed classifier, read off the entity
    definitions of the countries that were loaded and registered.  An
    entity id is a target when some enabled definition detects it by
    regex or LLM.  Its group and minimum come from its last enabled
    definition, its display name from the last enabled definition
    that has one, and its validator from the last enabled definition
    that names one: a later definition without a name or validator
    keeps those of an earlier country. *)
Theorem custom_analyze_indices (env : environment) (countries : list string)
    (ix : indices) (ent_id : string) :
  custom_analyze env countries = Return ix ->
  let defs := definitions env countries in
  (ent_id ∈ target_entities ix
   <-> exists d, d ∈ defs /\ d.1.2 = ent_id
                 /\ enabled d.2 = true /\ AnalyzerFactory.detects d.2 = true)
  /\ group_conf ix !! ent_id
     = (fun d => (min_conf_of d.2, group_name_of d.2)) <$> last_writer enabled ent_id defs
  /\ display_name ix !! ent_id
     = last_writer has_return_name ent_id defs
         ≫= (fun d => BaseCountryAnalyzer.truthy (return_name d.2))
  /\ validator_index ix !! ent_id
     = last_writer has_validator ent_id defs ≫= vinfo_of.
Proof.
  intros H defs. split; [| split; [| split]].
  - apply custom_analyze_flat in H as ->. fold defs.
    rewrite fold_target_entities. cbn [target_entities no_indices].
    split; [intros [Hin | Hd]; [| exact Hd] | auto].
    apply elem_of_empty in Hin. contradiction.
  - apply (custom_analyze_group_conf _ _ _ _ H).
  - apply custom_analyze_flat in H as ->. fold defs.
    rewrite (fold_insert_last has_return_name
               (fun d => default "" (BaseCountryAnalyzer.truthy (return_name d.2)))
               display_name ent_id step_display_name).
    unfold last_writer.
    destruct (last _) as [d |] eqn:Hl; [| reflexivity].
    apply last_Some_elem_of, list_elem_of_In, List.filter_In in Hl as [_ Hl].
    apply andb_true_iff in Hl as [_ Hl]. unfold has_return_name in Hl.
    apply andb_true_iff in Hl as [_ Hl]. apply bool_decide_eq_true in Hl as [rn Hrn].
    cbn. rewrite Hrn. reflexivity.
  - apply custom_analyze_flat in H as ->. fold defs.
    rewrite (fold_insert_last has_validator
               (fun d => {| v_country := d.1.1; v_fn := default "" (vfn_of d.2);
                            v_rules := vrules_of d.2 |})
               validator_index ent_id step_validator_index).
    unfold last_writer.
    destruct (last _) as [d |] eqn:Hl; [| reflexivity].
    apply last_Some_elem_of, list_elem_of_In, List.filter_In in Hl as [_ Hl].
    apply andb_true_iff in Hl as [_ Hl]. unfold has_validator in Hl.
    apply andb_true_iff in Hl as [_ Hl]. apply bool_decide_eq_true in Hl as [vfn Hvfn].
    cbn. unfold vinfo_of. rewrite Hvfn. reflexivity.
Qed.

(** X22: A classifier built from the configurations accepts a candidate
    only if its entity id has an enabled definition among them whose
    last one names a group other than [unknown], and only with a
    score of at least the minimum of that definition, which is 1 when
    the definition gives no thresholds. *)
Theorem constructed_classifier_accepts (env : environment) (countries : list string)
    (ix : indices) analyze judge_results anonymize importer ext
    (text : string) (r : RecognizerResult) :
  custom_analyze env countries = Return ix ->
  accepted (classifier_of ix analyze judge_results anonymize importer ext) text r = true ->
  exists d,
    last_writer enabled (entity_type r) (definitions env countries) = Some d
    /\ enabled d.2 = true
    /\ group d.2 <> "" /\ group d.2 <> "unknown"
    /\ (min_conf_of d.2 <= score r)%Qc
    /\ (thresholds (detect d.2) = None -> (Q2Qc 1 <= score r)%Qc).
Proof.
  intros H Hacc. unfold accepted in Hacc.
  destruct (ResultValidation.is_not_part_of_decimal _ _ _ _); [| discriminate].
  cbn [_group_conf classifier_of] in Hacc.
  rewrite (custom_analyze_group_conf _ _ _ _ H) in Hacc.
  destruct (last_writer enabled (entity_type r) (definitions env countries))
    as [d |] eqn:Hl; [| discriminate].
  cbn in Hacc. exists d. split; [reflexivity |].
  assert (He : enabled d.2 = true).
  { unfold last_writer in Hl.
    apply last_Some_elem_of, list_elem_of_In, List.filter_In in Hl as [_ Hl].
    apply andb_true_iff in Hl as [_ Hl]. exact Hl. }
  destruct (String.eqb_spec (group_name_of d.2) "unknown") as [Hu | Hu]; [discriminate |].
  rewrite !andb_true_iff in Hacc. destruct Hacc as [[[_ Hm] _] _].
  apply bool_decide_eq_true in Hm.
  unfold group_name_of in Hu.
  destruct (String.eqb_spec (group d.2) "") as [He' | He']; [congruence |].
  repeat split; try assumption.
  intros Ht. unfold min_conf_of in Hm. rewrite Ht in Hm. exact Hm.
Qed.

End Indices.

Lemma custom_analyze_indices_witness :
  Construction.group_conf MoreExamples.demo_indices !! "employee-id"
  = (fun d => (Construction.min_conf_of d.2, Construction.group_name_of d.2))
      <$> Construction.last_writer Config.enabled "employee-id"
            (Construction.definitions MoreExamples.demo_environment [])
  /\ Construction.display_name MoreExamples.demo_indices !! "employee-id"
     = Construction.last_writer Construction.has_return_name "employee-id"
         (Construction.definitions MoreExamples.demo_environment [])
         ≫= (fun d => BaseCountryAnalyzer.truthy (Config.return_name d.2)).
Proof.
  destruct (custom_analyze_indices MoreExamples.demo_environment []
              MoreExamples.demo_indices "employee-id" eq_refl)
    as (_ & Hgroup & Hname & _).
  split; [exact Hgroup | exact Hname].
Defined.

Lemma constructed_classifier_accepts_witness :
  exists d,
    Construction.last_writer Config.enabled "claim-number"
      (Construction.definitions MoreExamples.demo_environment []) = Some d
    /\ Config.enabled d.2 = true
    /\ Config.group d.2 <> "" /\ Config.group d.2 <> "unknown"
    /\ (Construction.min_conf_of d.2 <= Examples.score_085)%Qc
    /\ (Config.thresholds (Config.detect d.2) = None -> (Q2Qc 1 <= Examples.score_085)%Qc).
Proof.
  apply (constructed_classifier_accepts MoreExamples.demo_environment []
           MoreExamples.demo_indices
           (fun _ => Return []) (fun _ _ => Return []) (fun t _ => Return ([], t))
           Examples.no_modules Examples.plain_external
           Examples.demo_text (Examples.candidate "claim-number" 6 20));
    reflexivity.
Defined.


(** ** The flags of a country recognizer *)

Section Factory.
Import Config AnalyzerFactory.

Lemma build_enable_flags_fold (l : list (string * EntityConfig)) :
  forall p q,
    fold_left
      (fun '(enable_pattern, enable_llm) '(_, ent) =>
         if negb (enabled ent) then (enable_pattern, enable_llm)
         else
           (if has_patterns ent then true else enable_pattern,
            if in_list "llm" (methods (detect ent)) then true else enable_llm))
      l (p, q)
    = (p || existsb (fun item => enabled item.2 && has_patterns item.2) l,
       q || existsb (fun item => enabled item.2
                                 && in_list "llm" (methods (detect item.2))) l).
Proof.
  induction l as [| [ent_id ent] l IH]; intros p q.
  - cbn. rewrite !orb_false_r. reflexivity.
  - cbn [fold_left existsb snd].
    destruct (enabled ent); cbn [negb andb orb].
    + destruct (has_patterns ent), (in_list "llm" (methods (detect ent)));
        rewrite IH; cbn [orb]; rewrite ?orb_true_r; reflexivity.
    + apply IH.
Qed.

Lemma llm_ids_analyzer_config (cfg : CountryConfig) :
  BaseCountryAnalyzer.llm_ids_of (analyzer_config cfg)
  = map fst (List.filter
               (fun item => enabled item.2 && in_list "llm" (methods (detect item.2)))
               (entities cfg)).
Proof.
  unfold BaseCountryAnalyzer.llm_ids_of, analyzer_config.
  cbn [BaseCountryAnalyzer.entities].
  induction (entities cfg) as [| [ent_id ent] l IH]; [reflexivity |].
  cbn [map List.filter]. cbn [analyzer_entity BaseCountryAnalyzer.enabled
    BaseCountryAnalyzer.detect BaseCountryAnalyzer.methods snd].
  destruct (enabled ent && in_list "llm" (methods (detect ent))); cbn [map fst];
    rewrite IH; reflexivity.
Qed.

(** X23: The recognizer of a country runs its LLM pass exactly when it has
    LLM entity ids, and every such id is among the supported
    entities; the pattern flag is set exactly when an enabled entity
    detects by regex with at least one pattern. *)
Theorem country_recognizer_flags (cfg : CountryConfig)
    (co : BaseCountryAnalyzer.collaborators) :
  let a := build_country_recognizer cfg co in
  (BaseCountryAnalyzer._enable_llm a = true
   <-> BaseCountryAnalyzer._llm_entity_ids a <> [])
  /\ BaseCountryAnalyzer._llm_entity_ids a ⊆ build_supported_entities cfg
  /\ (BaseCountryAnalyzer._enable_pattern a = true
      <-> exists ent_id ent, (ent_id, ent) ∈ entities cfg
                             /\ enabled ent = true /\ has_patterns ent = true).
Proof.
  unfold build_country_recognizer, build_enable_flags.
  rewrite build_enable_flags_fold. cbn [orb BaseCountryAnalyzer.make
    BaseCountryAnalyzer._enable_llm BaseCountryAnalyzer._llm_entity_ids
    BaseCountryAnalyzer._enable_pattern].
  rewrite llm_ids_analyzer_config.
  split; [| split].
  - rewrite existsb_exists. split.
    + intros (item & Hin & Hb) Hnil.
      assert (Hm : item.1 ∈ map fst (List.filter
                 (fun item => enabled item.2 && in_list "llm" (methods (detect item.2)))
                 (entities cfg))).
      { apply list_elem_of_In, in_map, List.filter_In. auto. }
      rewrite Hnil in Hm. apply elem_of_nil in Hm. exact Hm.
    + intros Hne.
      destruct (List.filter _ (entities cfg)) as [| item l] eqn:Hf; [contradiction |].
      assert (Hin : In item (List.filter
                 (fun item => enabled item.2 && in_list "llm" (methods (detect item.2)))
                 (entities cfg))) by (rewrite Hf; left; reflexivity).
      apply List.filter_In in Hin. exists item. exact Hin.
  - intros ent_id Hin. unfold build_supported_entities.
    apply list_elem_of_In, in_map_iff in Hin as ([ent_id' ent] & <- & Hin).
    apply List.filter_In in Hin as [Hin Hb]. cbn [snd] in Hb.
    apply andb_true_iff in Hb as [He Hl].
    apply list_elem_of_In, in_map_iff. exists (ent_id', ent). split; [reflexivity |].
    apply List.filter_In. split; [exact Hin |].
    rewrite He. unfold detects. cbn [existsb andb]. rewrite Hl, orb_true_r. reflexivity.
  - rewrite existsb_exists. split.
    + intros ([ent_id ent] & Hin & Hb). apply andb_true_iff in Hb.
      exists ent_id, ent. split; [apply list_elem_of_In, Hin | exact Hb].
    + intros (ent_id & ent & Hin & He & Hp). exists (ent_id, ent).
      split; [apply list_elem_of_In, Hin |]. cbn [snd]. rewrite He, Hp. reflexivity.
Qed.

End Factory.

(** ** The classification service *)

Section Service.
Import EntityClassifier Classification.
Variable srv : service.

Lemma classifier_returns_input (self : classifier) (input_text : string)
    (anonymize_snippets : bool) :
  (entity_classifier_and_anonymizer self input_text anonymize_snippets).2 = input_text
  /\ (anonymize_snippets = true ->
      (entity_classifier_and_anonymizer self input_text anonymize_snippets).1 = ∅).
Proof.
  unfold entity_classifier_and_anonymizer, classify_body.
  destruct (analyze_response self input_text) as [results | e];
    destruct anonymize_snippets; cbn; split; try reflexivity; discriminate.
Qed.

(** X24: The service answers 200 exactly when the request validates and
    its text is not empty, whatever the classifier does.  When the
    request asks for anonymization, the answer carries no entity
    details, and as data the text of the request unchanged, or the
    empty string when the classifier could not be constructed. *)
Theorem process_request_outcomes :
  (status_code (process_request srv) = 200
   <-> exists req, model_validate srv = Return req /\ text req <> "")
  /\ forall req,
       model_validate srv = Return req -> text req <> "" -> anonymize req = true ->
       content (process_request srv)
       = Document {| data := Some (match new_classifier srv (country_list req) with
                                   | Return _ => text req
                                   | Raise _ => ""
                                   end);
                     entityDetails := ∅ |}.
Proof.
  unfold process_request. split.
  - destruct (model_validate srv) as [req | e].
    + destruct (String.eqb_spec (text req) "") as [He | He]; cbn.
      * split; [discriminate |]. intros (req' & [= <-] & Hne). contradiction.
      * split; [| reflexivity]. intros _. exists req. auto.
    + destruct (is_ValidationError srv e); cbn;
        (split; [discriminate | intros (req & Hreq & _); discriminate]).
  - intros req -> Hne Han.
    destruct (String.eqb_spec (text req) "") as [He | He]; [contradiction |].
    cbn [content]. f_equal. unfold _get_classifier_response.
    destruct (new_classifier srv (country_list req)) as [obj | e].
    + pose proof (classifier_returns_input obj (text req) (anonymize req)) as [H2 H1].
      specialize (H1 Han).
      destruct (entity_classifier_and_anonymizer obj (text req) (anonymize req))
        as [details txt].
      cbn in H1, H2. subst. rewrite Han. reflexivity.
    + reflexivity.
Qed.

End Service.
